(** * Video frame-sampling pipeline of [backend/app.py]

    A shallow embedding of the [/predict/video/frames] handler
    ([predict_video_frames]) together with the parts of its environment the
    handler talks to: the temporary-file store, the video capture object and
    the detector.  Python exceptions are carried by a sum type, the file
    system by explicit state passing. *)

From Stdlib Require Import ZArith QArith Qround Lia List.
From stdpp Require Import base option list sorting gmap strings pretty.

Local Open Scope Z_scope.

(** ** Python values and exceptions *)

(** The exceptions that can reach the handler's [except Exception] clause.
    [RuntimeError] stands for whatever the detector raises. *)
Inductive exn : Type :=
  | ZeroDivisionError
  | KeyError (key : Z)
  | FileNotFoundError (path : string)
  | RuntimeError (msg : string).

(** [str(e)] *)
Definition str (e : exn) : string :=
  match e with
  | ZeroDivisionError => "division by zero"
  | KeyError k => pretty k
  | FileNotFoundError p => p
  | RuntimeError m => m
  end.

(** A computation that either raises or returns. *)
Definition Exc (A : Type) : Type := exn + A.

Definition ret {A} (a : A) : Exc A := inr a.
Definition raise {A} (e : exn) : Exc A := inl e.
Definition bind {A B} (m : Exc A) (k : A -> Exc B) : Exc B :=
  match m with
  | inl e => inl e
  | inr a => k a
  end.

Declare Scope exc_scope.
Delimit Scope exc_scope with exc.
Notation "x <- m ;; k" := (bind m (fun x => k))
  (at level 100, m at next level, right associativity) : exc_scope.
Local Open Scope exc_scope.

(** [int(x)] on a float: truncation towards zero. Floats are carried as the
    rationals they denote; infinities and NaN, on which [int] raises, are
    not represented. *)
Definition py_int (x : Q) : Z := Z.quot (Qnum x) (Zpos (Qden x)).

(** [a / b] on ints: true division. *)
Definition py_truediv (a b : Z) : Exc Q :=
  if b =? 0 then raise ZeroDivisionError
  else ret (inject_Z a / inject_Z b)%Q.

(** [a // b] and [a % b] on ints: floor division and its remainder. *)
Definition py_floordiv (a b : Z) : Exc Z :=
  if b =? 0 then raise ZeroDivisionError else ret (a / b).

Definition py_mod (a b : Z) : Exc Z :=
  if b =? 0 then raise ZeroDivisionError else ret (a mod b).

(** ** Data model *)

Definition bytes : Type := list Byte.byte.

(** A decoded frame: rows of pixels, three channels each. *)
Definition Pixel : Type := (Z * Z * Z)%type.
Definition Image : Type := list (list Pixel).

(** [cv2.cvtColor(frame, cv2.COLOR_BGR2RGB)]: the first and third channel
    change places. *)
Definition cvtColor_BGR2RGB (frame : Image) : Image :=
  map (map (fun '(b, g, r) => (r, g, b))) frame.

(** One entry of [results[0].boxes]: the tensors [xyxy[0]], [conf[0]] and
    [cls[0]]. *)
Record Box : Type := mkBox {
  xyxy : Q * Q * Q * Q;
  conf : Q;
  cls : Q
}.

(** The loaded detector: [model.predict] (which may raise, and whose first
    result may carry [boxes = None]) and the [model.names] dict. *)
Record YOLO : Type := mkYOLO {
  predict : Image -> Q -> Exc (option (list Box));
  names : gmap Z string
}.

(** The dict a detection is reported as. *)
Record Detection : Type := mkDetection {
  class_name : string;
  confidence : Q;
  bbox : list Q;
  class_id : Z
}.

(** One element of [frame_data]. *)
Record FrameRecord : Type := mkFrameRecord {
  frame_number : Z;
  timestamp : Q;
  detections : list Detection;
  frame_image : string
}.

(** The dict the handler returns. *)
Record Payload : Type := mkPayload {
  success : bool;
  fps : Z;
  total_frames : Z;
  duration : Q;
  frame_interval : Z;
  frames : list FrameRecord;
  message : string
}.

Record HTTPException : Type := mkHTTPException {
  status_code : Z;
  detail : string
}.

(** What the client sees: the 200 body or the error. *)
Definition Response : Type := (HTTPException + Payload)%type.

(** An opened [cv2.VideoCapture]: the two properties the handler queries and
    the frames that [read()] will still deliver before it reports
    [ret = False]. The reported frame count is container metadata; nothing
    ties it to the number of frames that decode. *)
Record VideoCapture : Type := mkVideoCapture {
  CAP_PROP_FPS : Q;
  CAP_PROP_FRAME_COUNT : Q;
  stream : list Image
}.

(** A capture that failed to open: [get] answers 0.0 and [read] delivers
    nothing. *)
Definition unopened : VideoCapture :=
  {| CAP_PROP_FPS := 0; CAP_PROP_FRAME_COUNT := 0; stream := [] |}.

(** The file system: path to contents. *)
Abbreviation FS := (gmap string bytes).

(** Code that touches the file system and may raise: the store is threaded
    through, and is kept as it stands when an exception passes. *)
Definition IO (A : Type) : Type := FS -> FS * Exc A.

Definition io_ret {A} (a : A) : IO A := fun fs => (fs, ret a).
Definition io_bind {A B} (m : IO A) (k : A -> IO B) : IO B :=
  fun fs =>
    match m fs with
    | (fs', inl e) => (fs', inl e)
    | (fs', inr a) => k a fs'
    end.
Definition lift {A} (m : Exc A) : IO A := fun fs => (fs, m).

Declare Scope io_scope.
Delimit Scope io_scope with io.
Notation "x <- m ;; k" := (io_bind m (fun x => k))
  (at level 100, m at next level, right associativity) : io_scope.

(** [os.unlink(path)] *)
Definition unlink (path : string) : IO unit :=
  fun fs =>
    match fs !! path with
    | Some _ => (delete path fs, ret tt)
    | None => (fs, raise (FileNotFoundError path))
    end.

(** ** The handler *)

Section handler.

(** The video decoder behind [cv2.VideoCapture], as a function of the
    file's contents. *)
Variable decode : bytes -> VideoCapture.

(** [cv2.imencode('.jpg', frame)] and
    [base64.b64encode(buffer).decode('utf-8')]. *)
Variable imencode_jpg : Image -> bytes.
Variable b64encode : bytes -> string.

(** The name [tempfile.NamedTemporaryFile] picks, given the files that
    exist. *)
Variable tmp_name : FS -> string.

(** The module-level [model]. *)
Variable model : YOLO.

(** [with tempfile.NamedTemporaryFile(delete=False, suffix=".mp4") as tmp_file:
       tmp_file.write(content); tmp_file_path = tmp_file.name] *)
Definition NamedTemporaryFile_write (content : bytes) : IO string :=
  fun fs =>
    let tmp_file_path := tmp_name fs in
    (<[tmp_file_path := content]> fs, ret tmp_file_path).

(** [cv2.VideoCapture(path)]: never raises; a missing or undecodable file
    gives a capture that is not opened. *)
Definition VideoCapture_open (path : string) : IO VideoCapture :=
  fun fs =>
    match fs !! path with
    | Some b => (fs, ret (decode b))
    | None => (fs, ret unopened)
    end.

(** [model.names[cls]] *)
Definition names_getitem (cls : Z) : Exc string :=
  match names model !! cls with
  | Some n => ret n
  | None => raise (KeyError cls)
  end.

(** The body of [for box in results[0].boxes]. *)
Definition box_detection (box : Box) : Exc Detection :=
  let '(x1, y1, x2, y2) := xyxy box in
  let conf := conf box in
  let cls := py_int (cls box) in
  (class_name <- names_getitem cls ;;
   ret {| class_name := class_name;
          confidence := conf;
          bbox := [x1; y1; x2; y2];
          class_id := cls |})%exc.

(** [for box in results[0].boxes: ... detections.append({...})] *)
Fixpoint for_boxes (boxes : list Box) (detections : list Detection)
    : Exc (list Detection) :=
  match boxes with
  | [] => ret detections
  | box :: boxes' =>
      (d <- box_detection box ;;
       for_boxes boxes' (detections ++ [d]))%exc
  end.

(** Lines 163-183: colour conversion, prediction, the detections list. *)
Definition detect (frame : Image) : Exc (list Detection) :=
  let frame_rgb := cvtColor_BGR2RGB frame in
  (results <- predict model frame_rgb (25 # 100) ;;
   let detections := [] in
   match results with
   | Some boxes => for_boxes boxes detections
   | None => ret detections
   end)%exc.

(** Lines 163-194: the record appended for a sampled frame. *)
Definition process_frame (fps frame_count : Z) (frame : Image)
    : Exc FrameRecord :=
  (detections <- detect frame ;;
   let frame_base64 := b64encode (imencode_jpg frame) in
   timestamp <- py_truediv frame_count fps ;;
   ret {| frame_number := frame_count;
          timestamp := timestamp;
          detections := detections;
          frame_image := frame_base64 |})%exc.

(** The [while True] loop over [cap.read()]: [pending] is what the capture
    still holds; an empty list is [ret = False] and breaks. *)
Fixpoint read_loop (fps frame_interval : Z) (pending : list Image)
    (frame_count : Z) (frame_data : list FrameRecord)
    : Exc (list FrameRecord) :=
  match pending with
  | [] => ret frame_data
  | frame :: pending' =>
      (r <- py_mod frame_count frame_interval ;;
       frame_data' <-
         (if r =? 0
          then (rec <- process_frame fps frame_count frame ;;
                ret (frame_data ++ [rec]))
          else ret frame_data) ;;
       read_loop fps frame_interval pending' (frame_count + 1) frame_data')%exc
  end.

(** The [try] block. *)
Definition try_block (content : bytes) : IO Payload :=
  (tmp_file_path <- NamedTemporaryFile_write content ;;
   cap <- VideoCapture_open tmp_file_path ;;
   let fps := py_int (CAP_PROP_FPS cap) in
   let total_frames := py_int (CAP_PROP_FRAME_COUNT cap) in
   duration <- lift (py_truediv total_frames fps) ;;
   fps_half <- lift (py_floordiv fps 2) ;;
   let frame_interval := Z.max 1 fps_half in
   frame_data <- lift (read_loop fps frame_interval (stream cap) 0 []) ;;
   _ <- unlink tmp_file_path ;;
   io_ret {| success := true;
             fps := fps;
             total_frames := total_frames;
             duration := duration;
             frame_interval := frame_interval;
             frames := frame_data;
             message := "Processed " +:+ pretty (length frame_data)
                          +:+ " frames" |})%io.

(** [except Exception as e: raise HTTPException(status_code=500, detail=str(e))] *)
Definition predict_video_frames (content : bytes) (fs : FS) : FS * Response :=
  match try_block content fs with
  | (fs', inl e) => (fs', inl {| status_code := 500; detail := str e |})
  | (fs', inr payload) => (fs', inr payload)
  end.

End handler.

(** ** Auxiliary definitions for the proofs *)

(** The frames of [l] whose running index, starting at [c], is a multiple of
    [k], with that index. *)
Fixpoint sampled (k c : Z) (l : list Image) : list (Z * Image) :=
  match l with
  | [] => []
  | f :: l' =>
      if c mod k =? 0 then (c, f) :: sampled k (c + 1) l'
      else sampled k (c + 1) l'
  end.

(** Run [f] over a list, stopping at the first exception. *)
Fixpoint traverse {A B} (f : A -> Exc B) (l : list A) : Exc (list B) :=
  match l with
  | [] => ret []
  | x :: l' => (y <- f x ;; ys <- traverse f l' ;; ret (y :: ys))%exc
  end.

Section derived.
Variable imencode_jpg : Image -> bytes.
Variable b64encode : bytes -> string.
Variable model : YOLO.

(** The record built from frame [f] at index [i] once detection gave [d]. *)
Definition record_of (fps i : Z) (f : Image) (d : list Detection) : FrameRecord :=
  {| frame_number := i;
     timestamp := (inject_Z i / inject_Z fps)%Q;
     detections := d;
     frame_image := b64encode (imencode_jpg f) |}.

(** The part of the [try] block between opening the capture and deleting
    the file, which does not touch the file system, on its own;
    [predict_video_frames_pipeline] below states how the handler is built
    around it. *)
Definition pipeline (cap : VideoCapture) : Exc Payload :=
  let fps := py_int (CAP_PROP_FPS cap) in
  let total_frames := py_int (CAP_PROP_FRAME_COUNT cap) in
  (duration <- py_truediv total_frames fps ;;
   fps_half <- py_floordiv fps 2 ;;
   let frame_interval := Z.max 1 fps_half in
   frame_data <- read_loop imencode_jpg b64encode model
                   fps frame_interval (stream cap) 0 [] ;;
   ret {| success := true;
          fps := fps;
          total_frames := total_frames;
          duration := duration;
          frame_interval := frame_interval;
          frames := frame_data;
          message := "Processed " +:+ pretty (length frame_data)
                       +:+ " frames" |}).

(** The sampling interval the handler derives from a capture. *)
Definition interval_of (cap : VideoCapture) : Z :=
  Z.max 1 (py_int (CAP_PROP_FPS cap) / 2).

(** Detection goes through on every frame the sampler selects. *)
Definition detector_succeeds (cap : VideoCapture) : Prop :=
  forall (n : nat) (f : Image),
    stream cap !! n = Some f ->
    Z.of_nat n mod interval_of cap = 0 ->
    exists d, detect model f = inr d.

(** A record list that is, frame by frame, what the sampled frames give. *)
Definition records_for (cap : VideoCapture) (recs : list FrameRecord) : Prop :=
  Forall2
    (fun p r => exists d, detect model p.2 = inr d /\
                          r = record_of (py_int (CAP_PROP_FPS cap)) p.1 p.2 d)
    (sampled (interval_of cap) 0 (stream cap)) recs.

(** The payload of a successful run over [cap] with records [recs]. *)
Definition payload_of (cap : VideoCapture) (recs : list FrameRecord) : Payload :=
  {| success := true;
     fps := py_int (CAP_PROP_FPS cap);
     total_frames := py_int (CAP_PROP_FRAME_COUNT cap);
     duration := (inject_Z (py_int (CAP_PROP_FRAME_COUNT cap)) /
                  inject_Z (py_int (CAP_PROP_FPS cap)))%Q;
     frame_interval := interval_of cap;
     frames := recs;
     message := "Processed " +:+ pretty (length recs) +:+ " frames" |}.

End derived.

(** A decision procedure for [detector_succeeds], on all frames. *)
Definition all_detected (model : YOLO) (cap : VideoCapture) : bool :=
  forallb (fun f => match detect model f with inr _ => true | inl _ => false end)
    (stream cap).

(** ** What a caller can compare between two runs *)

Definition frame_view (r : FrameRecord) : Z * Q * list Detection :=
  (frame_number r, timestamp r, detections r).

Definition payload_view (p : Payload)
    : bool * Z * Z * Q * Z * list (Z * Q * list Detection) * string :=
  (success p, fps p, total_frames p, duration p, frame_interval p,
   frame_view <$> frames p, message p).

Definition response_view (r : Response) :=
  match r with
  | inl e => inl e
  | inr p => inr (payload_view p)
  end.

Definition exc_map {A B} (g : A -> B) (m : Exc A) : Exc B :=
  match m with
  | inl e => inl e
  | inr a => inr (g a)
  end.

(** ** A small concrete environment

    A toy container format, detector and temporary-name policy, used to run
    the handler on concrete uploads. *)
Module Toy.

Definition byte_val (b : Byte.byte) : Z := Z.of_N (Byte.to_N b).

Definition gray (b : Byte.byte) : Image :=
  [[(byte_val b, byte_val b, byte_val b)]].

(** Header: one signed byte of frame rate, two bytes of declared frame
    count; then one byte per frame. Anything shorter does not open. *)
Definition decode (content : bytes) : VideoCapture :=
  match content with
  | rate :: hi :: lo :: body =>
      let r := byte_val rate in
      {| CAP_PROP_FPS := inject_Z (if r <? 128 then r else r - 256);
         CAP_PROP_FRAME_COUNT := inject_Z (256 * byte_val hi + byte_val lo);
         stream := map gray body |}
  | _ => unopened
  end.

Definition imencode_jpg (frame : Image) : bytes :=
  match frame with
  | [[(b, _, _)]] => match Byte.of_N (Z.to_N b) with Some x => [x] | None => [] end
  | _ => []
  end.

Definition b64encode (b : bytes) : string := String.string_of_list_byte b.

Definition tmp_name (fs : FS) : string :=
  "/tmp/tmp" +:+ pretty (size fs) +:+ ".mp4".

(** The detector looks at the first pixel: 255 makes it raise, 0 gives no
    [boxes] at all, 1 gives an empty [boxes], anything else one box of
    that class. *)
Definition model : YOLO :=
  {| predict := fun img _ =>
       match img with
       | [[(r, _, _)]] =>
           if r =? 255 then raise (RuntimeError "CUDA out of memory")
           else if r =? 0 then ret None
           else if r =? 1 then ret (Some [])
           else ret (Some [ {| xyxy := (1, 2, 3, 4)%Q; conf := 9 # 10;
                               cls := inject_Z r |} ])
       | _ => ret None
       end;
     names := {[ 2 := "crack"; 3 := "erosion" ]} |}.

Definition handler : bytes -> FS -> FS * Response :=
  predict_video_frames decode imencode_jpg b64encode tmp_name model.

(** Uploads. *)
Definition header (rate hi lo : Byte.byte) : bytes := [rate; hi; lo].

(** An empty body: the capture does not open. *)
Definition corrupt : bytes := [].

(** 4 fps, five frames declared and delivered. *)
Definition clip : bytes :=
  header Byte.x04 Byte.x00 Byte.x05
    ++ [Byte.x02; Byte.x00; Byte.x01; Byte.x03; Byte.x00].

(** 30 fps, 300 frames declared and delivered. *)
Definition long_clip : bytes :=
  header Byte.x1e Byte.x01 Byte.x2c ++ replicate 300 Byte.x00.

(** 30 fps, no frame declared, one delivered. *)
Definition understated : bytes :=
  header Byte.x1e Byte.x00 Byte.x00 ++ [Byte.x00].

(** 30 fps, 300 frames declared, none delivered. *)
Definition hollow : bytes := header Byte.x1e Byte.x01 Byte.x2c.

(** 30 fps, no frame declared, none delivered. *)
Definition empty_clip : bytes := header Byte.x1e Byte.x00 Byte.x00.

(** A frame rate of 0, resp. -1, with frames that decode. *)
Definition zero_rate : bytes :=
  header Byte.x00 Byte.x00 Byte.x03 ++ [Byte.x02; Byte.x00; Byte.x01].
Definition negative_rate : bytes :=
  header Byte.xff Byte.x00 Byte.x03 ++ [Byte.x02; Byte.x00; Byte.x01].

(** 2 fps; the detector raises on the second frame. *)
Definition failing : bytes :=
  header Byte.x02 Byte.x00 Byte.x03 ++ [Byte.x02; Byte.xff; Byte.x01].

End Toy.

(** ** Further notions about detections and runs *)

(** Detection [d] is the dict the handlers build from box [b]. *)
Definition box_matches (model : YOLO) (b : Box) (d : Detection) : Prop :=
  names model !! py_int (cls b) = Some (class_name d) /\
  class_id d = py_int (cls b) /\
  confidence d = conf b /\
  bbox d = let '(x1, y1, x2, y2) := xyxy b in [x1; y1; x2; y2].

(** What the detector reported for a frame, with [boxes = None] read as no
    box. *)
Definition reported_boxes (results : option (list Box)) : list Box :=
  match results with
  | Some boxes => boxes
  | None => []
  end.

(** The number of multiples of [k] among the indices [0 .. n-1]. *)
Definition ceil_div (n k : Z) : Z := (n + k - 1) / k.

Module ToyVariant.

(** The toy detector, except that it also raises on a first pixel of 3. *)
Definition model : YOLO :=
  {| predict := fun img c =>
       match img with
       | [[(3, _, _)]] => raise (RuntimeError "unsupported input")
       | _ => predict Toy.model img c
       end;
     names := names Toy.model |}.

Definition handler : bytes -> FS -> FS * Response :=
  predict_video_frames Toy.decode Toy.imencode_jpg Toy.b64encode
    Toy.tmp_name model.

(** 2 fps; the second frame carries a box of class 4, which has no name. *)
Definition unnamed_class : bytes :=
  Toy.header Byte.x02 Byte.x00 Byte.x03 ++ [Byte.x02; Byte.x04; Byte.x01].

(** 30 fps, 31 frames: frames 0, 15 and 30 are sampled. *)
Definition second_clip : bytes :=
  Toy.header Byte.x1e Byte.x00 Byte.x1f ++ replicate 31 Byte.x02.

End ToyVariant.

(** ** The image endpoint *)

(** [l[0]] raises [IndexError] on an empty list. The handlers read nothing
    of an exception but its [str], which is what is kept of this one. *)
Definition IndexError : exn := RuntimeError "list index out of range".

Definition first_item {A} (l : list A) : Exc A :=
  match l with
  | x :: _ => ret x
  | [] => raise IndexError
  end.

(** A PIL image: its [mode] ("RGB", "RGBA", "L", ...) and its pixels. *)
Record PILImage : Type := mkPILImage {
  mode : string;
  pixels : Image
}.

(** One element of the list [model.predict] returns: its [boxes] and the
    array [plot()] draws. *)
Record Result : Type := mkResult {
  boxes : option (list Box);
  plot : Image
}.

(** The dict [predict_image] returns. *)
Record ImagePayload : Type := mkImagePayload {
  image_success : bool;
  image_detections : list Detection;
  annotated_image : string;
  total_detections : nat
}.

Section image_handler.

(** [Image.open(io.BytesIO(contents))] and [image.convert(mode)]. *)
Variable Image_open : bytes -> Exc PILImage.
Variable convert : PILImage -> string -> PILImage.

(** [model.predict(image, conf=..., save=False)] on a PIL image, with the
    whole list of results. *)
Variable predict_all : PILImage -> Q -> Exc (list Result).

(** [Image.fromarray(a).save(buffered, format="PNG")] followed by
    [buffered.getvalue()], and [base64.b64encode(...).decode()]. *)
Variable save_png : Image -> bytes.
Variable b64encode : bytes -> string.

(** The module-level [model], for [model.names]. *)
Variable model : YOLO.

(** [for result in results: if result.boxes is not None: for box in ...] *)
Fixpoint for_results (results : list Result) (detections : list Detection)
    : Exc (list Detection) :=
  match results with
  | [] => ret detections
  | result :: results' =>
      (detections' <-
         match boxes result with
         | Some bs => for_boxes model bs detections
         | None => ret detections
         end ;;
       for_results results' detections')%exc
  end.

(** The [try] block of [predict_image]. *)
Definition predict_image_try (contents : bytes) : Exc ImagePayload :=
  (image <- Image_open contents ;;
   let image :=
     if decide (mode image = "RGB") then image else convert image "RGB" in
   results <- predict_all image (25 # 100) ;;
   detections <- for_results results [] ;;
   result0 <- first_item results ;;
   let annotated_img := plot result0 in
   let img_str := b64encode (save_png annotated_img) in
   ret {| image_success := true;
          image_detections := detections;
          annotated_image := img_str;
          total_detections := length detections |})%exc.

(** [except Exception as e: raise HTTPException(status_code=500, detail=str(e))] *)
Definition predict_image (contents : bytes) : HTTPException + ImagePayload :=
  match predict_image_try contents with
  | inl e => inl {| status_code := 500; detail := str e |}
  | inr payload => inr payload
  end.

End image_handler.

(** All the boxes of a list of results, in order. *)
Definition all_boxes (results : list Result) : list Box :=
  concat (map (fun r => reported_boxes (boxes r)) results).

(** ** The whole-video endpoint *)

(** One element of what [model.predict(..., save=True)] returns: its
    [save_dir] attribute, if it has one. *)
Record VideoResult : Type := mkVideoResult {
  save_dir : option string
}.

(** The dict [predict_video] returns. *)
Record VideoPayload : Type := mkVideoPayload {
  video_success : bool;
  output_video : string;
  video_message : string
}.

(** [os.path.exists(path)] *)
Definition path_exists (path : string) (fs : FS) : bool :=
  bool_decide (is_Some (fs !! path)).

Section video_handler.

Variable tmp_name : FS -> string.

(** [model.predict(tmp_file_path, conf=0.25, save=True, project=..., name=...)]:
    it reads the file, may write its output and may raise. *)
Variable predict_save : string -> IO (list VideoResult).

(** [list(Path(save_dir).glob("*.mp4"))], as strings, in the order the
    operating system lists them. *)
Variable glob_mp4 : string -> FS -> list string.

(** [str(e)] for an [HTTPException]; it differs between versions of the
    web framework. *)
Variable HTTPException_str : HTTPException -> string.

(** The search for the output video: the first [.mp4] under the first
    [save_dir] that holds one. *)
Fixpoint find_output (results : list VideoResult) (fs : FS) : option string :=
  match results with
  | [] => None
  | result :: results' =>
      match save_dir result with
      | Some d =>
          match glob_mp4 d fs with
          | video :: _ => Some video
          | [] => find_output results' fs
          end
      | None => find_output results' fs
      end
  end.

(** [output_video_path and os.path.exists(output_video_path)] *)
Definition output_found (output_video_path : option string) (fs : FS) : bool :=
  match output_video_path with
  | Some path => if decide (path = "") then false else path_exists path fs
  | None => false
  end.

(** The [HTTPException] raised inside the [try] block; the [except] clause
    around it reads its [str]. *)
Definition failed_to_process : exn :=
  RuntimeError
    (HTTPException_str
       {| status_code := 500; detail := "Failed to process video" |}).

(** The [try] block of [predict_video]. *)
Definition predict_video_try (content : bytes) : IO VideoPayload :=
  (tmp_file_path <- NamedTemporaryFile_write tmp_name content ;;
   results <- predict_save tmp_file_path ;;
   output_video_path <- (fun fs => (fs, ret (find_output results fs))) ;;
   _ <- unlink tmp_file_path ;;
   found <- (fun fs => (fs, ret (output_found output_video_path fs))) ;;
   if found : bool
   then io_ret {| video_success := true;
                  output_video := default "" output_video_path;
                  video_message := "Video processed successfully" |}
   else lift (raise failed_to_process))%io.

(** [except Exception as e: raise HTTPException(status_code=500, detail=str(e))] *)
Definition predict_video (content : bytes) (fs : FS)
    : FS * (HTTPException + VideoPayload) :=
  match predict_video_try content fs with
  | (fs', inl e) => (fs', inl {| status_code := 500; detail := str e |})
  | (fs', inr payload) => (fs', inr payload)
  end.

End video_handler.

(** ** The startup script [start_app.py] *)

Module StartApp.

(** What the script does to the outside world, in order. *)
Inductive Event : Type :=
  | Print (line : string)
  | Popen (args : list string) (cwd : string)
  | Chdir (dir : string)
  | Sleep (seconds : Z)
  | BrowserOpen (url : string)
  | Wait
  | Terminate.

(** What the script finds when it runs. *)
Record World : Type := mkWorld {
  (** [os.getcwd()] *)
  getcwd : string;
  (** the absolute paths that exist *)
  files : gset string;
  (** [import m]: [None] when it succeeds, else the [ImportError]'s text *)
  import_error : string -> option string;
  (** [sys.executable] *)
  executable : string;
  (** the text of [list(Path(".").iterdir())] *)
  listing : string;
  (** what [subprocess.Popen] raises, if it does *)
  popen_error : option string;
  (** whether Ctrl+C arrives while the script waits for the server *)
  interrupted : bool
}.

(** [Path(p).absolute()] for a relative [p]. *)
Definition absolute (w : World) (p : string) : string :=
  if decide (getcwd w = "/") then "/" +:+ p else getcwd w +:+ "/" +:+ p.

(** [Path(p).exists()] for a relative [p]. *)
Definition exists_ (w : World) (p : string) : bool :=
  bool_decide (absolute w p ∈ files w).

(** ["=" * 60] *)
Definition rule : string := String.concat "" (replicate 60 "=").

Definition newline : string := String (Ascii.ascii_of_nat 10) "".

Definition import_all (w : World) : option string :=
  match import_error w "ultralytics" with
  | Some e => Some e
  | None =>
      match import_error w "fastapi" with
      | Some e => Some e
      | None => import_error w "uvicorn"
      end
  end.

Definition check_requirements (w : World) : list Event * bool :=
  match import_all w with
  | None => ([Print "✓ All Python requirements are installed"], true)
  | Some e =>
      ([Print ("✗ Missing requirement: " +:+ e);
        Print "Please install requirements: pip install -r backend/requirements.txt"],
       false)
  end.

(** The command line of the server. *)
Definition server_args (w : World) : list string :=
  [executable w; "-m"; "uvicorn"; "app:app"; "--host"; "0.0.0.0";
   "--port"; "8000"; "--reload"].

(** [start_backend()]: [inl] is an exception out of [Popen], [inr None] the
    early [return None], [inr (Some tt)] the process handle. *)
Definition start_backend (w : World) : list Event * (string + option unit) :=
  let backend_dir := "backend" in
  if negb (exists_ w backend_dir)
  then ([Print "Starting backend server...";
         Print "✗ Backend directory not found!"], inr None)
  else
    let original_cwd := getcwd w in
    match popen_error w with
    | Some e => ([Print "Starting backend server..."], inl e)
    | None =>
        ([Print "Starting backend server...";
          Popen (server_args w) backend_dir;
          Chdir original_cwd;
          Sleep 3], inr (Some tt))
    end.

Definition start_frontend (w : World) : list Event * bool :=
  let frontend_path := absolute w "frontend/index.html" in
  if negb (exists_ w "frontend/index.html")
  then ([Print "Opening frontend...";
         Print "✗ Frontend files not found!";
         Print ("Looking for: " +:+ frontend_path);
         Print ("Current directory: " +:+ getcwd w);
         Print ("Available files: " +:+ listing w)], false)
  else ([Print "Opening frontend...";
         BrowserOpen ("file://" +:+ frontend_path)], true).

Definition model_file : string := "runs/detect/nordtank_damage4/weights/best.pt".

(** [main()]: the events, and the text of an exception that escapes. *)
Definition main (w : World) : list Event * option string :=
  let banner := [Print rule;
                 Print "Wind Turbine Damage Detection System";
                 Print rule] in
  if negb (exists_ w model_file)
  then (banner ++
        [Print "✗ Model file not found!";
         Print "Please make sure you're in the correct directory with your trained model"],
        None)
  else
    let '(checked, ok) := check_requirements w in
    if negb ok then (banner ++ checked, None)
    else
      match start_backend w with
      | (started, inl e) => (banner ++ checked ++ started, Some e)
      | (started, inr None) => (banner ++ checked ++ started, None)
      | (started, inr (Some backend_process)) =>
          let '(opened, ok) := start_frontend w in
          if negb ok then (banner ++ checked ++ started ++ opened, None)
          else
            (banner ++ checked ++ started ++ opened ++
             [Print (newline +:+ rule);
              Print "System is running!";
              Print rule;
              Print "Backend API: http://localhost:8000";
              Print "Frontend: Check your browser";
              Print (newline +:+ "Press Ctrl+C to stop the server");
              Wait] ++
             (if interrupted w
              then [Print (newline +:+ "Stopping server...");
                    Terminate;
                    Print "Server stopped"]
              else []),
             None)
      end.

(** Everything the script checks before it launches the server. *)
Definition ready_for_backend (w : World) : Prop :=
  exists_ w model_file = true /\
  import_all w = None /\
  exists_ w "backend" = true.

End StartApp.

(** Each run of [main] takes one of six courses. *)
Inductive startup_course (w : StartApp.World) : Prop :=
  | no_model :
      StartApp.exists_ w StartApp.model_file = false ->
      startup_course w
  | missing_requirement (e : string) :
      StartApp.exists_ w StartApp.model_file = true ->
      StartApp.import_all w = Some e ->
      startup_course w
  | no_backend_dir :
      StartApp.exists_ w StartApp.model_file = true ->
      StartApp.import_all w = None ->
      StartApp.exists_ w "backend" = false ->
      startup_course w
  | launch_failed (e : string) :
      StartApp.ready_for_backend w -> StartApp.popen_error w = Some e ->
      startup_course w
  | no_frontend :
      StartApp.ready_for_backend w -> StartApp.popen_error w = None ->
      StartApp.exists_ w "frontend/index.html" = false ->
      startup_course w
  | running :
      StartApp.ready_for_backend w -> StartApp.popen_error w = None ->
      StartApp.exists_ w "frontend/index.html" = true ->
      startup_course w.

(** ** Concrete environments for the other endpoints and the script *)

Module ToyImage.

(** One byte per image: 0 is an RGB picture, anything else a greyscale one;
    an empty body does not open. *)
Definition Image_open (contents : bytes) : Exc PILImage :=
  match contents with
  | [] => raise (RuntimeError "cannot identify image file")
  | b :: _ =>
      ret {| mode := if Byte.eqb b Byte.x00 then "RGB" else "L";
             pixels := Toy.gray b |}
  end.

Definition convert (image : PILImage) (m : string) : PILImage :=
  {| mode := m; pixels := pixels image |}.

(** Two results per picture: what the toy detector reports, twice. *)
Definition predict_all (image : PILImage) (c : Q) : Exc (list Result) :=
  (r <- predict Toy.model (pixels image) c ;;
   ret [ {| boxes := r; plot := pixels image |};
         {| boxes := r; plot := [] |} ])%exc.

Definition handler : bytes -> HTTPException + ImagePayload :=
  predict_image Image_open convert predict_all Toy.imencode_jpg Toy.b64encode
    Toy.model.

End ToyImage.

Module ToyVideo.

Definition out_dir : string := "outputs/video_prediction".
Definition out_file : string := "outputs/video_prediction/clip.mp4".

(** The first byte decides: 255 makes prediction raise, 0 makes it return
    without writing anything, anything else makes it write the output. *)
Definition predict_save (path : string) : IO (list VideoResult) :=
  fun fs =>
    match fs !! path with
    | Some (b :: body) =>
        if Byte.eqb b Byte.xff
        then (fs, raise (RuntimeError "cannot decode video"))
        else if Byte.eqb b Byte.x00
        then (fs, ret [ {| save_dir := None |}; {| save_dir := Some out_dir |} ])
        else (<[out_file := body]> fs,
              ret [ {| save_dir := None |}; {| save_dir := Some out_dir |} ])
    | _ => (fs, raise (RuntimeError "cannot decode video"))
    end.

Definition glob_mp4 (d : string) (fs : FS) : list string :=
  if decide (d = out_dir)
  then (if path_exists out_file fs then [out_file] else [])
  else [].

Definition HTTPException_str (h : HTTPException) : string :=
  pretty (status_code h) +:+ ": " +:+ detail h.

Definition handler : bytes -> FS -> FS * (HTTPException + VideoPayload) :=
  predict_video Toy.tmp_name predict_save glob_mp4 HTTPException_str.

Definition good : bytes := [Byte.x01; Byte.x02].
Definition silent : bytes := [Byte.x00; Byte.x02].
Definition broken : bytes := [Byte.xff].

End ToyVideo.

Module ToyWorld.

Definition complete : gset string :=
  {[ "/srv/app/runs/detect/nordtank_damage4/weights/best.pt";
     "/srv/app/backend";
     "/srv/app/frontend/index.html" ]}.

Definition without_frontend : gset string :=
  {[ "/srv/app/runs/detect/nordtank_damage4/weights/best.pt";
     "/srv/app/backend" ]}.

Definition world (fs : gset string) (stop : bool) : StartApp.World :=
  {| StartApp.getcwd := "/srv/app";
     StartApp.files := fs;
     StartApp.import_error := fun _ => None;
     StartApp.executable := "/usr/bin/python3";
     StartApp.listing := "[]";
     StartApp.popen_error := None;
     StartApp.interrupted := stop |}.

(** As [world], with [fastapi] and [uvicorn] not installed. *)
Definition world_missing_modules : StartApp.World :=
  {| StartApp.getcwd := "/srv/app";
     StartApp.files := complete;
     StartApp.import_error := fun m =>
       if decide (m = "ultralytics") then None
       else Some ("No module named '" +:+ m +:+ "'");
     StartApp.executable := "/usr/bin/python3";
     StartApp.listing := "[]";
     StartApp.popen_error := None;
     StartApp.interrupted := false |}.

End ToyWorld.

(** ** Python arithmetic *)

Example py_int_2997 : py_int (2997 # 100) = 29.
Proof. reflexivity. Qed.

Example py_int_neg_half : py_int (-1 # 2) = 0.
Proof. reflexivity. Qed.

Example py_floordiv_neg : py_floordiv (-3) 2 = ret (-2).
Proof. reflexivity. Qed.

(** ** Reading the loop as a traversal of the sampled frames *)



Lemma py_mod_nonzero a k : k ≠ 0 -> py_mod a k = ret (a mod k).
Proof. intros Hk. unfold py_mod. by destruct (Z.eqb_spec k 0). Qed.

Lemma py_truediv_nonzero a b :
  b ≠ 0 -> py_truediv a b = ret (inject_Z a / inject_Z b)%Q.
Proof. intros Hb. unfold py_truediv. by destruct (Z.eqb_spec b 0). Qed.

Section traverse_facts.
Context {A B : Type} (f : A -> Exc B).

Lemma traverse_ext (g : A -> Exc B) l :
  (forall x, f x = g x) -> traverse f l = traverse g l.
Proof. intros H. induction l as [|x l IH]; simpl; [done|]. by rewrite H, IH. Qed.

Lemma traverse_inr l ys :
  traverse f l = inr ys -> Forall2 (fun x y => f x = inr y) l ys.
Proof.
  revert ys. induction l as [|x l IH]; simpl; intros ys H.
  - injection H as <-. constructor.
  - destruct (f x) as [e|y] eqn:Hx; simpl in H; [discriminate|].
    destruct (traverse f l) as [e|ys'] eqn:Hl; simpl in H; [discriminate|].
    injection H as <-. constructor; auto.
Qed.

Lemma traverse_all_ok l :
  Forall (fun x => exists y, f x = inr y) l -> exists ys, traverse f l = inr ys.
Proof.
  induction 1 as [|x l [y Hy] _ [ys Hys]]; simpl.
  - by eexists.
  - rewrite Hy; simpl. rewrite Hys; simpl. by eexists.
Qed.

Lemma traverse_first_failure l1 x l2 e :
  Forall (fun x => exists y, f x = inr y) l1 ->
  f x = inl e ->
  traverse f (l1 ++ x :: l2) = inl e.
Proof.
  induction 1 as [|x' l1 [y Hy] _ IH]; simpl; intros Hx.
  - by rewrite Hx.
  - rewrite Hy; simpl. by rewrite IH.
Qed.

Lemma traverse_some_failure l x e :
  x ∈ l -> f x = inl e -> exists e', traverse f l = inl e'.
Proof.
  induction 1 as [x l|x x' l _ IH]; simpl; intros Hx.
  - rewrite Hx. by eexists.
  - destruct (f x') as [e'|y]; simpl; [by eexists|].
    destruct (IH Hx) as [e' ->]. by eexists.
Qed.

End traverse_facts.

Section sampled_facts.
Variable k : Z.

Lemma elem_of_sampled c l i f :
  (i, f) ∈ sampled k c l <->
  exists n : nat, l !! n = Some f /\ i = c + Z.of_nat n /\ i mod k = 0.
Proof.
  revert c. induction l as [|g l IH]; intros c; simpl.
  - split; [by intros ?%elem_of_nil | by intros (n & ? & _)].
  - assert (Htail : (i, f) ∈ sampled k (c + 1) l <->
              exists n : nat, l !! n = Some f /\ i = c + Z.of_nat (S n) /\
                              i mod k = 0).
    { rewrite IH. split; intros (n & ? & -> & ?); exists n;
        repeat split; auto; lia. }
    destruct (Z.eqb_spec (c mod k) 0) as [Hc|Hc].
    + rewrite elem_of_cons, Htail. split.
      * intros [[= -> ->]|(n & ? & ? & ?)].
        -- exists 0%nat. repeat split; auto; lia.
        -- by exists (S n).
      * intros ([|n] & Hn & -> & Hm); simpl in Hn.
        -- left. injection Hn as ->. f_equal. lia.
        -- right. by exists n.
    + rewrite Htail. split.
      * intros (n & ? & ? & ?). by exists (S n).
      * intros ([|n] & Hn & -> & Hm); simpl in Hn.
        -- exfalso. apply Hc. by rewrite Z.add_0_r in Hm.
        -- by exists n.
Qed.

Lemma sampled_indices c l :
  (sampled k c l).*1 =
  filter (fun i => i mod k = 0) (seqZ c (Z.of_nat (length l))).
Proof.
  revert c. induction l as [|g l IH]; intros c; [done|].
  cbn [sampled length]. rewrite seqZ_cons by lia.
  replace (Z.pred (Z.of_nat (S (length l)))) with (Z.of_nat (length l)) by lia.
  rewrite filter_cons. unfold Z.succ.
  destruct (Z.eqb_spec (c mod k) 0) as [Hc|Hc].
  - rewrite decide_True by done. cbn. by rewrite IH.
  - rewrite decide_False by done. by rewrite IH.
Qed.

End sampled_facts.

(** ** The handler, step by step *)

Section handler_facts.
Variable decode : bytes -> VideoCapture.
Variable imencode_jpg : Image -> bytes.
Variable b64encode : bytes -> string.
Variable tmp_name : FS -> string.
Variable model : YOLO.

Local Abbreviation process := (process_frame imencode_jpg b64encode model).
Local Abbreviation loop := (read_loop imencode_jpg b64encode model).
Local Abbreviation handle :=
  (predict_video_frames decode imencode_jpg b64encode tmp_name model).
Local Abbreviation record := (record_of imencode_jpg b64encode).
Local Abbreviation run := (pipeline imencode_jpg b64encode model).


Lemma process_frame_nonzero fps i f :
  fps ≠ 0 ->
  process fps i f = (d <- detect model f ;; ret (record fps i f d)).
Proof.
  intros Hfps. unfold process_frame.
  destruct (detect model f) as [e|d]; simpl; [done|].
  by rewrite py_truediv_nonzero.
Qed.

Lemma read_loop_sampled fps k l c acc :
  k ≠ 0 ->
  loop fps k l c acc =
  (recs <- traverse (fun p => process fps p.1 p.2) (sampled k c l) ;;
   ret (acc ++ recs)).
Proof.
  intros Hk. revert c acc. induction l as [|f l IH]; intros c acc; simpl.
  - by rewrite app_nil_r.
  - rewrite py_mod_nonzero by done. simpl.
    destruct (c mod k =? 0); simpl.
    + destruct (process fps c f) as [e|r]; simpl; [done|].
      rewrite IH.
      destruct (traverse _ (sampled k (c + 1) l)) as [e|rs]; simpl; [done|].
      by rewrite <- app_assoc.
    + apply IH.
Qed.


Lemma predict_video_frames_pipeline content fs :
  handle content fs =
  match run (decode content) with
  | inl e => (<[tmp_name fs := content]> fs,
              inl {| status_code := 500; detail := str e |})
  | inr p => (delete (tmp_name fs) (<[tmp_name fs := content]> fs), inr p)
  end.
Proof.
  unfold predict_video_frames, try_block, pipeline,
    NamedTemporaryFile_write, VideoCapture_open, unlink, lift, io_bind, io_ret.
  unfold ret, bind. cbv beta iota. rewrite lookup_insert_eq.
  destruct (py_truediv _ _) as [e|d]; [done|].
  destruct (py_floordiv _ _) as [e|h]; [done|].
  destruct (read_loop _ _ _ _ _ _ _ _) as [e|rs]; [done|].
  by rewrite lookup_insert_eq.
Qed.

Lemma interval_of_pos cap : 1 <= interval_of cap.
Proof. unfold interval_of. lia. Qed.

Lemma pipeline_zero cap :
  py_int (CAP_PROP_FPS cap) = 0 -> run cap = inl ZeroDivisionError.
Proof. intros H. unfold pipeline. by rewrite H. Qed.

Lemma pipeline_nonzero cap :
  let fps := py_int (CAP_PROP_FPS cap) in
  let total_frames := py_int (CAP_PROP_FRAME_COUNT cap) in
  fps ≠ 0 ->
  run cap =
  (recs <- traverse (fun p => d <- detect model p.2 ;; ret (record fps p.1 p.2 d))
             (sampled (interval_of cap) 0 (stream cap)) ;;
   ret {| success := true;
          fps := fps;
          total_frames := total_frames;
          duration := (inject_Z total_frames / inject_Z fps)%Q;
          frame_interval := interval_of cap;
          frames := recs;
          message := "Processed " +:+ pretty (length recs) +:+ " frames" |}).
Proof.
  intros fps total_frames Hfps. unfold pipeline. fold fps total_frames.
  rewrite py_truediv_nonzero by done. simpl.
  rewrite read_loop_sampled
    by (pose proof (interval_of_pos cap); unfold interval_of in *; lia).
  fold (interval_of cap).
  erewrite traverse_ext; [|intros p; by apply process_frame_nonzero].
  destruct (traverse _ _) as [e|recs]; simpl; done.
Qed.

End handler_facts.

(** ** Order of the sampled indices *)

Lemma sampled_lower_bound k c l i :
  i ∈ (sampled k c l).*1 -> c <= i < c + Z.of_nat (length l).
Proof.
  intros ([i' f] & -> & Hin)%list_elem_of_fmap.
  apply elem_of_sampled in Hin as (n & Hn & -> & _).
  apply lookup_lt_Some in Hn. simpl. lia.
Qed.

Lemma sampled_sorted k c l : StronglySorted Z.lt (sampled k c l).*1.
Proof.
  revert c. induction l as [|f l IH]; intros c; simpl; [constructor|].
  destruct (c mod k =? 0); [|apply IH].
  simpl. constructor; [apply IH|].
  apply Forall_forall. intros i Hi%sampled_lower_bound. lia.
Qed.

Lemma StronglySorted_lt_NoDup (l : list Z) : StronglySorted Z.lt l -> NoDup l.
Proof.
  induction 1 as [|x l _ IH Hx]; constructor; [|done].
  intros Hin. rewrite Forall_forall in Hx. specialize (Hx _ Hin). lia.
Qed.

(** ** Successful runs *)

Section runs.
Variable decode : bytes -> VideoCapture.
Variable imencode_jpg : Image -> bytes.
Variable b64encode : bytes -> string.
Variable tmp_name : FS -> string.
Variable model : YOLO.

Local Abbreviation handle :=
  (predict_video_frames decode imencode_jpg b64encode tmp_name model).
Local Abbreviation record := (record_of imencode_jpg b64encode).
Local Abbreviation run := (pipeline imencode_jpg b64encode model).
Local Abbreviation detected := (detector_succeeds model).
Local Abbreviation records := (records_for imencode_jpg b64encode model).


Lemma bind_record_inr fps (p : Z * Image) r :
  (d <- detect model p.2 ;; ret (record fps p.1 p.2 d)) = inr r ->
  exists d, detect model p.2 = inr d /\ r = record fps p.1 p.2 d.
Proof.
  destruct (detect model p.2) as [e|d]; simpl; [done|].
  intros [= <-]. by exists d.
Qed.

(** A run returns a payload exactly when the frame rate is not zero and
    detection succeeds on the sampled frames; the payload is then
    determined. *)
Lemma pipeline_inr cap p :
  run cap = inr p ->
  py_int (CAP_PROP_FPS cap) ≠ 0 /\
  exists recs, p = payload_of cap recs /\ records cap recs.
Proof.
  intros Hp.
  destruct (decide (py_int (CAP_PROP_FPS cap) = 0)) as [Hz|Hnz].
  { by rewrite pipeline_zero in Hp. }
  split; [done|]. rewrite pipeline_nonzero in Hp by done.
  destruct (traverse _ _) as [e|recs] eqn:Ht; simpl in Hp; [done|].
  injection Hp as <-. exists recs. split; [done|].
  apply traverse_inr in Ht. unfold records_for.
  eapply Forall2_impl; [exact Ht|]. intros x y. apply bind_record_inr.
Qed.

Lemma pipeline_success cap :
  py_int (CAP_PROP_FPS cap) ≠ 0 ->
  detected cap ->
  exists recs,
    run cap = inr (payload_of cap recs) /\
    records cap recs.
Proof.
  intros Hfps Hdet.
  destruct (run cap) as [e|p] eqn:Hp.
  - exfalso. rewrite pipeline_nonzero in Hp by done.
    destruct (traverse_all_ok
      (fun p => d <- detect model p.2 ;;
                ret (record (py_int (CAP_PROP_FPS cap)) p.1 p.2 d))
      (sampled (interval_of cap) 0 (stream cap))) as [recs Hrecs].
    + apply Forall_forall. intros [i f] (n & Hn & -> & Hm)%elem_of_sampled.
      destruct (Hdet n f Hn Hm) as [d Hd]. simpl. rewrite Hd. by eexists.
    + by rewrite Hrecs in Hp.
  - apply pipeline_inr in Hp as (_ & recs & -> & Hrecs). by exists recs.
Qed.

Lemma handle_success content fs :
  py_int (CAP_PROP_FPS (decode content)) ≠ 0 ->
  detected (decode content) ->
  exists recs,
    handle content fs =
      (delete (tmp_name fs) (<[tmp_name fs := content]> fs),
       inr (payload_of (decode content) recs)) /\
    records (decode content) recs.
Proof.
  intros Hfps Hdet. destruct (pipeline_success _ Hfps Hdet) as (recs & Hp & Hr).
  exists recs. split; [|done]. by rewrite predict_video_frames_pipeline, Hp.
Qed.

Lemma handle_inr content fs p :
  (handle content fs).2 = inr p ->
  py_int (CAP_PROP_FPS (decode content)) ≠ 0 /\
  exists recs, p = payload_of (decode content) recs /\
               records (decode content) recs.
Proof.
  rewrite predict_video_frames_pipeline.
  destruct (pipeline _ _ _ _) as [e|p'] eqn:Hp; simpl; [done|].
  intros [= <-]. by apply pipeline_inr.
Qed.

Lemma records_for_indices cap recs :
  records cap recs ->
  frame_number <$> recs = (sampled (interval_of cap) 0 (stream cap)).*1.
Proof.
  unfold records_for. induction 1 as [|p r l rs (d & _ & ->) _ IH]; [done|].
  cbn. by rewrite IH.
Qed.

Lemma records_for_elem_of cap recs r :
  records cap recs -> r ∈ recs ->
  exists (n : nat) f d,
    stream cap !! n = Some f /\ Z.of_nat n mod interval_of cap = 0 /\
    detect model f = inr d /\
    r = record (py_int (CAP_PROP_FPS cap)) (Z.of_nat n) f d.
Proof.
  intros Hrecs (j & Hj)%list_elem_of_lookup.
  destruct (Forall2_lookup_r _ _ _ _ _ Hrecs Hj) as ([i f] & Hp & d & Hd & ->).
  apply list_elem_of_lookup_2, elem_of_sampled in Hp as (n & Hn & -> & Hm).
  exists n, f, d. rewrite Z.add_0_l in *. by repeat split.
Qed.

Lemma records_for_sampled cap recs (n : nat) f :
  records cap recs ->
  stream cap !! n = Some f -> Z.of_nat n mod interval_of cap = 0 ->
  exists d, detect model f = inr d /\
            record (py_int (CAP_PROP_FPS cap)) (Z.of_nat n) f d ∈ recs.
Proof.
  intros Hrecs Hn Hm.
  assert (Hin : (Z.of_nat n, f) ∈ sampled (interval_of cap) 0 (stream cap)).
  { apply elem_of_sampled. exists n. by rewrite Z.add_0_l. }
  apply list_elem_of_lookup in Hin as (j & Hj).
  destruct (Forall2_lookup_l _ _ _ _ _ Hrecs Hj) as (r & Hr & d & Hd & ->).
  exists d. split; [done|]. by eapply list_elem_of_lookup_2.
Qed.

End runs.

(** ** Where the first failing frame sits among the sampled ones *)

Lemma sampled_split k c l (n : nat) f :
  l !! n = Some f ->
  (c + Z.of_nat n) mod k = 0 ->
  sampled k c l =
  sampled k c (take n l) ++
    (c + Z.of_nat n, f) :: sampled k (c + Z.of_nat n + 1) (drop (S n) l).
Proof.
  revert c l. induction n as [|n IH]; intros c [|g l] Hn Hm; try done.
  - simpl in *. injection Hn as ->. rewrite Z.add_0_r in *.
    rewrite Hm. simpl. by rewrite drop_0.
  - simpl in Hn. cbn [take drop sampled].
    rewrite (IH (c + 1) l Hn) by (rewrite <- Hm; f_equal; lia).
    replace (c + 1 + Z.of_nat n) with (c + Z.of_nat (S n)) by lia.
    by destruct (c mod k =? 0).
Qed.


Lemma all_detected_succeeds model cap :
  all_detected model cap = true -> detector_succeeds model cap.
Proof.
  unfold all_detected. rewrite forallb_forall. intros H n f Hn _.
  apply list_elem_of_lookup_2, list_elem_of_In, H in Hn.
  destruct (detect model f) as [e|d]; [done|by exists d].
Qed.


Lemma traverse_views {A} (f1 f2 : A -> Exc FrameRecord) l :
  (forall x, exc_map frame_view (f1 x) = exc_map frame_view (f2 x)) ->
  exc_map (fmap frame_view) (traverse f1 l) =
  exc_map (fmap frame_view) (traverse f2 l).
Proof.
  intros H. induction l as [|x l IH]; simpl; [done|].
  specialize (H x).
  destruct (f1 x) as [e1|r1], (f2 x) as [e2|r2]; simpl in *; try done.
  { by injection H as ->. }
  destruct (traverse f1 l) as [e1|rs1], (traverse f2 l) as [e2|rs2];
    simpl in *; try done.
  injection H as Hn Ht Hd. injection IH as IH.
  unfold frame_view. rewrite Hn, Ht, Hd. do 2 f_equal. exact IH.
Qed.

(** ** Properties of the handler *)

Section properties.
Variable decode : bytes -> VideoCapture.
Variable imencode_jpg : Image -> bytes.
Variable b64encode : bytes -> string.
Variable tmp_name : FS -> string.
Variable model : YOLO.

Local Abbreviation handle :=
  (predict_video_frames decode imencode_jpg b64encode tmp_name model).
Local Abbreviation fps_of := (fun content => py_int (CAP_PROP_FPS (decode content))).
Local Abbreviation count_of :=
  (fun content => py_int (CAP_PROP_FRAME_COUNT (decode content))).

(** On the success path the temporary file is gone, and if its name was
    free before the request the file system is back to what it was. *)
Lemma temp_file_removed_on_success content fs p :
  (handle content fs).2 = inr p ->
  (handle content fs).1 !! tmp_name fs = None /\
  (fs !! tmp_name fs = None -> (handle content fs).1 = fs).
Proof.
  rewrite predict_video_frames_pipeline.
  destruct (pipeline _ _ _ _) as [e|p']; simpl; [done|]. intros _. split.
  - apply lookup_delete_eq.
  - intros Hfresh. rewrite delete_insert_eq. by apply delete_id.
Qed.

(** C1 (the code departs from the claim): whenever the handler answers
    with an error, the temporary file it wrote is still there afterwards,
    holding the uploaded bytes; [os.unlink] is only reached on the success
    path. *)
Theorem temp_file_left_on_failure content fs e :
  (handle content fs).2 = inl e ->
  (handle content fs).1 !! tmp_name fs = Some content.
Proof.
  rewrite predict_video_frames_pipeline.
  destruct (pipeline _ _ _ _) as [e'|p]; simpl; [|done].
  intros _. apply lookup_insert_eq.
Qed.

(** C2: when the frame rate is not zero (in particular for every positive
    rate) and detection goes through, the response carries
    [frame_interval = max(1, fps // 2)], which is at least 1; a frame at
    index [n] has a record exactly when [n mod frame_interval = 0]; and a
    video with at least one frame has a record for frame 0. *)
Theorem sampling_interval_and_selection content fs :
  fps_of content ≠ 0 ->
  detector_succeeds model (decode content) ->
  exists p,
    (handle content fs).2 = inr p /\
    fps p = fps_of content /\
    frame_interval p = Z.max 1 (fps p / 2) /\
    1 <= frame_interval p /\
    (forall (n : nat) f, stream (decode content) !! n = Some f ->
       ((exists r, r ∈ frames p /\ frame_number r = Z.of_nat n) <->
        Z.of_nat n mod frame_interval p = 0)) /\
    (forall r, r ∈ frames p -> frame_number r mod frame_interval p = 0) /\
    (stream (decode content) ≠ [] ->
       exists r, r ∈ frames p /\ frame_number r = 0).
Proof.
  intros Hfps Hdet.
  destruct (handle_success decode imencode_jpg b64encode tmp_name model
              content fs Hfps Hdet) as (recs & Hrun & Hrecs).
  exists (payload_of (decode content) recs). rewrite Hrun. cbn.
  split; [done|]. split; [done|]. split; [done|].
  split; [apply interval_of_pos|]. split; [|split].
  - intros n f Hn. split.
    + intros (r & Hr & Hnum).
      destruct (records_for_elem_of _ _ _ _ _ _ Hrecs Hr)
        as (n' & f' & d & _ & Hm & _ & ->).
      cbn in Hnum. by rewrite <- Hnum.
    + intros Hm.
      destruct (records_for_sampled _ _ _ _ _ _ _ Hrecs Hn Hm) as (d & _ & Hin).
      eexists. split; [exact Hin|done].
  - intros r Hr.
    by destruct (records_for_elem_of _ _ _ _ _ _ Hrecs Hr)
      as (n' & f' & d & _ & Hm & _ & ->).
  - intros Hne. destruct (stream (decode content)) as [|f l] eqn:Hs; [done|].
    destruct (records_for_sampled _ _ _ _ _ 0%nat f Hrecs) as (d & _ & Hin).
    + by rewrite Hs.
    + apply Z.mod_0_l. pose proof (interval_of_pos (decode content)). lia.
    + eexists. split; [exact Hin|done].
Qed.

(** C3 (amended): in a successful response the frame numbers are strictly
    increasing, hence without duplicates, and are exactly the multiples of
    the interval among the indices of the frames the capture delivered;
    they stay below the reported [total_frames] whenever that count is at
    least the number of frames delivered. *)
Theorem frames_sorted_and_exact content fs :
  fps_of content ≠ 0 ->
  detector_succeeds model (decode content) ->
  exists p,
    (handle content fs).2 = inr p /\
    StronglySorted Z.lt (frame_number <$> frames p) /\
    NoDup (frame_number <$> frames p) /\
    frame_number <$> frames p =
      filter (fun i => i mod frame_interval p = 0)
        (seqZ 0 (Z.of_nat (length (stream (decode content))))) /\
    (forall r, r ∈ frames p ->
       0 <= frame_number r < Z.of_nat (length (stream (decode content)))) /\
    (Z.of_nat (length (stream (decode content))) <= total_frames p ->
     forall r, r ∈ frames p -> 0 <= frame_number r < total_frames p).
Proof.
  intros Hfps Hdet.
  destruct (handle_success decode imencode_jpg b64encode tmp_name model
              content fs Hfps Hdet) as (recs & Hrun & Hrecs).
  exists (payload_of (decode content) recs). rewrite Hrun. cbn.
  pose proof (records_for_indices _ _ _ _ _ Hrecs) as Hidx.
  assert (Hbound : forall r, r ∈ recs ->
            0 <= frame_number r < Z.of_nat (length (stream (decode content)))).
  { intros r Hr.
    assert (Hin : frame_number r ∈
              (sampled (interval_of (decode content)) 0
                 (stream (decode content))).*1).
    { rewrite <- Hidx. by apply list_elem_of_fmap_2. }
    apply sampled_lower_bound in Hin. lia. }
  split; [done|]. rewrite Hidx.
  split; [apply sampled_sorted|].
  split; [apply StronglySorted_lt_NoDup, sampled_sorted|].
  split; [apply sampled_indices|].
  split; [exact Hbound|].
  intros Hcount r Hr. specialize (Hbound r Hr). lia.
Qed.

(** C4 (amended): a frame rate that reads as zero makes the request fail
    with status 500 and the division-by-zero message; no payload is
    produced. *)
Theorem zero_frame_rate_fails content fs :
  py_int (CAP_PROP_FPS (decode content)) = 0 ->
  (predict_video_frames decode imencode_jpg b64encode tmp_name model
     content fs).2 =
    inl {| status_code := 500; detail := str ZeroDivisionError |}.
Proof.
  intros Hz. rewrite predict_video_frames_pipeline.
  by rewrite pipeline_zero.
Qed.

(** C5: in a successful response every record's timestamp is its frame
    number divided by [fps], and [duration] is the reported
    [total_frames] divided by [fps], both taken from the capture's
    properties and not from the frames read. *)
Theorem timestamps_and_duration content fs :
  fps_of content ≠ 0 ->
  detector_succeeds model (decode content) ->
  exists p,
    (handle content fs).2 = inr p /\
    fps p = fps_of content /\
    total_frames p = count_of content /\
    (forall r, r ∈ frames p ->
       timestamp r = (inject_Z (frame_number r) / inject_Z (fps p))%Q) /\
    duration p = (inject_Z (total_frames p) / inject_Z (fps p))%Q.
Proof.
  intros Hfps Hdet.
  destruct (handle_success decode imencode_jpg b64encode tmp_name model
              content fs Hfps Hdet) as (recs & Hrun & Hrecs).
  exists (payload_of (decode content) recs). rewrite Hrun. cbn.
  repeat split.
  intros r Hr.
  by destruct (records_for_elem_of _ _ _ _ _ _ Hrecs Hr)
    as (n & f & d & _ & _ & _ & ->).
Qed.

(** C6: a capture at 30 fps that declares and delivers 300 frames gives
    [frame_interval = 15], a duration of 10 seconds and exactly 20
    records, numbered 0, 15, 30, ..., 285. *)
Theorem ten_seconds_at_30_fps content fs :
  fps_of content = 30 ->
  count_of content = 300 ->
  length (stream (decode content)) = 300%nat ->
  detector_succeeds model (decode content) ->
  exists p,
    (handle content fs).2 = inr p /\
    frame_interval p = 15 /\
    (duration p == 10)%Q /\
    length (frames p) = 20%nat /\
    frame_number <$> frames p = (fun j => 15 * j) <$> seqZ 0 20 /\
    message p = "Processed 20 frames".
Proof.
  intros Hfps Hcount Hlen Hdet.
  assert (Hnz : fps_of content ≠ 0) by (rewrite Hfps; lia).
  destruct (handle_success decode imencode_jpg b64encode tmp_name model
              content fs Hnz Hdet) as (recs & Hrun & Hrecs).
  exists (payload_of (decode content) recs). rewrite Hrun. cbn.
  pose proof (records_for_indices _ _ _ _ _ Hrecs) as Hidx.
  rewrite sampled_indices in Hidx. unfold interval_of in *.
  rewrite Hfps, Hcount, Hlen in *.
  assert (Hnum : frame_number <$> recs = (fun j => 15 * j) <$> seqZ 0 20).
  { rewrite Hidx. by vm_compute. }
  assert (Hrecs20 : length recs = 20%nat).
  { rewrite <- (length_fmap frame_number), Hnum. reflexivity. }
  rewrite Hrecs20. repeat split; done.
Qed.

(** C7: in a successful response every sampled frame has its record, so
    there are as many records as sampled indices; when the detector
    reported no boxes for such a frame ([boxes] empty or [None]) its record
    is present with [detections = []]. *)
Theorem empty_detections_are_kept content fs :
  fps_of content ≠ 0 ->
  detector_succeeds model (decode content) ->
  exists p,
    (handle content fs).2 = inr p /\
    length (frames p) =
      length (filter (fun i => i mod frame_interval p = 0)
                (seqZ 0 (Z.of_nat (length (stream (decode content)))))) /\
    (forall (n : nat) f,
       stream (decode content) !! n = Some f ->
       Z.of_nat n mod frame_interval p = 0 ->
       predict model (cvtColor_BGR2RGB f) (25 # 100) = inr None \/
       predict model (cvtColor_BGR2RGB f) (25 # 100) = inr (Some []) ->
       exists r, r ∈ frames p /\ frame_number r = Z.of_nat n /\
                 detections r = []).
Proof.
  intros Hfps Hdet.
  destruct (handle_success decode imencode_jpg b64encode tmp_name model
              content fs Hfps Hdet) as (recs & Hrun & Hrecs).
  exists (payload_of (decode content) recs). rewrite Hrun. cbn.
  split; [done|]. split.
  - rewrite <- sampled_indices, <- (records_for_indices _ _ _ _ _ Hrecs).
    by rewrite length_fmap.
  - intros n f Hn Hm Hnone.
    destruct (records_for_sampled _ _ _ _ _ _ _ Hrecs Hn Hm) as (d & Hd & Hin).
    eexists. split; [exact Hin|]. split; [done|]. cbn.
    unfold detect in Hd. destruct Hnone as [Hp|Hp]; rewrite Hp in Hd;
      simpl in Hd; by injection Hd as <-.
Qed.

(** C8: if the detector raises on a sampled frame the request ends in a
    500 error with a detail string and no payload; when the frame rate is
    not zero and detection went through on the sampled frames before it,
    the detail is the message of that exception. *)
Theorem detector_failure_aborts content fs (n : nat) f e :
  stream (decode content) !! n = Some f ->
  Z.of_nat n mod interval_of (decode content) = 0 ->
  predict model (cvtColor_BGR2RGB f) (25 # 100) = inl e ->
  (exists msg, (handle content fs).2 =
                 inl {| status_code := 500; detail := msg |}) /\
  (fps_of content ≠ 0 ->
   (forall (m : nat) g, (m < n)%nat ->
      stream (decode content) !! m = Some g ->
      Z.of_nat m mod interval_of (decode content) = 0 ->
      exists d, detect model g = inr d) ->
   (handle content fs).2 = inl {| status_code := 500; detail := str e |}).
Proof.
  intros Hn Hm He.
  assert (Hdet : detect model f = inl e) by (unfold detect; by rewrite He).
  rewrite predict_video_frames_pipeline.
  destruct (decide (fps_of content = 0)) as [Hz|Hnz].
  { rewrite pipeline_zero by done. split; [by eexists|done]. }
  rewrite pipeline_nonzero by done.
  set (step := fun p : Z * Image => _).
  assert (Hstep : step (Z.of_nat n, f) = inl e).
  { unfold step. simpl. by rewrite Hdet. }
  split.
  - destruct (traverse_some_failure step
                (sampled (interval_of (decode content)) 0 (stream (decode content)))
                (Z.of_nat n, f) e) as [e' He']; [|done|].
    + apply elem_of_sampled. exists n. by rewrite Z.add_0_l.
    + rewrite He'. by eexists.
  - intros _ Hbefore.
    rewrite (sampled_split _ 0 _ n f Hn) by (by rewrite Z.add_0_l).
    rewrite Z.add_0_l.
    rewrite (traverse_first_failure step _ _ _ e); [done| |done].
    apply Forall_forall. intros [i g] (m & Hg & -> & Hi)%elem_of_sampled.
    rewrite Z.add_0_l in Hi.
    apply lookup_take_Some in Hg as [Hg Hlt].
    destruct (Hbefore m g Hlt Hg Hi) as [d Hd].
    unfold step. simpl. rewrite Hd. by eexists.
Qed.

(** C10 (amended): a capture with a positive frame rate that delivers no
    frame is answered with a payload: [success] is true, [frames] is
    empty, the message says 0 frames were processed, and [duration] is the
    reported [total_frames] over [fps], which is 0 when no frame is
    reported. Every payload the handler returns has [success] true. *)
Theorem empty_video_is_success content fs :
  0 < fps_of content ->
  stream (decode content) = [] ->
  (exists p,
     (handle content fs).2 = inr p /\
     success p = true /\
     frames p = [] /\
     message p = "Processed 0 frames" /\
     duration p = (inject_Z (count_of content) / inject_Z (fps_of content))%Q /\
     (count_of content = 0 -> (duration p == 0)%Q)) /\
  (forall content' fs' p',
     (handle content' fs').2 = inr p' -> success p' = true).
Proof.
  intros Hfps Hs. split.
  - rewrite predict_video_frames_pipeline, pipeline_nonzero by lia.
    rewrite Hs. cbn. eexists. split; [done|]. cbn. repeat split.
    intros ->. reflexivity.
  - intros content' fs' p' Hp.
    apply handle_inr in Hp as (_ & recs & -> & _). reflexivity.
Qed.

End properties.

(** C9: two runs on the same bytes with the same decoder and detector give
    the same outcome, whatever the file system each starts from, the
    temporary name each is given and the image encoder each uses: the same
    error, or payloads that agree on every top-level field and on the frame
    number, timestamp and detections of every record. *)
Theorem rerun_same_result decode model content
    imencode_jpg1 b64encode1 tmp_name1 fs1
    imencode_jpg2 b64encode2 tmp_name2 fs2 :
  response_view
    (predict_video_frames decode imencode_jpg1 b64encode1 tmp_name1 model
       content fs1).2 =
  response_view
    (predict_video_frames decode imencode_jpg2 b64encode2 tmp_name2 model
       content fs2).2.
Proof.
  rewrite !predict_video_frames_pipeline.
  destruct (decide (py_int (CAP_PROP_FPS (decode content)) = 0)) as [Hz|Hnz].
  { by rewrite !pipeline_zero. }
  rewrite !pipeline_nonzero by done.
  match goal with
  | |- context [traverse ?f1 ?l] =>
      match goal with
      | |- response_view (match (_ <- traverse f1 l ;; _) with _ => _ end).2 =
           response_view (match (_ <- traverse ?f2 l ;; _) with _ => _ end).2 =>
          pose proof (traverse_views f1 f2 l) as Hv
      end
  end.
  lapply Hv.
  2:{ intros [i f]. simpl. by destruct (detect model f). }
  clear Hv. intros Hv.
  destruct (traverse _ _) as [e1|rs1], (traverse _ _) as [e2|rs2];
    simpl in *; try done.
  - by injection Hv as ->.
  - injection Hv as Hv. unfold payload_view. cbn.
    assert (Hlen : length rs1 = length rs2).
    { by rewrite <- (length_fmap frame_view rs1), <- (length_fmap frame_view rs2),
        Hv. }
    rewrite Hlen. do 2 f_equal. by rewrite Hv.
Qed.

(** ** Concrete runs *)

Lemma temp_file_left_on_failure_witness :
  (Toy.handler Toy.corrupt ∅).2 =
    inl {| status_code := 500; detail := "division by zero" |} /\
  (∅ : FS) !! Toy.tmp_name ∅ = None /\
  (Toy.handler Toy.corrupt ∅).1 !! Toy.tmp_name ∅ = Some Toy.corrupt.
Proof.
  split; [reflexivity|]. split; [reflexivity|].
  apply (temp_file_left_on_failure Toy.decode Toy.imencode_jpg Toy.b64encode
           Toy.tmp_name Toy.model Toy.corrupt ∅
           {| status_code := 500; detail := "division by zero" |}).
  reflexivity.
Defined.

Lemma sampling_interval_and_selection_witness :
  py_int (CAP_PROP_FPS (Toy.decode Toy.clip)) ≠ 0 /\
  detector_succeeds Toy.model (Toy.decode Toy.clip) /\
  exists p,
    (Toy.handler Toy.clip ∅).2 = inr p /\
    frame_interval p = 2 /\
    exists r, r ∈ frames p /\ frame_number r = 0.
Proof.
  assert (H1 : py_int (CAP_PROP_FPS (Toy.decode Toy.clip)) ≠ 0)
    by (vm_compute; discriminate).
  assert (H2 : detector_succeeds Toy.model (Toy.decode Toy.clip))
    by (apply all_detected_succeeds; reflexivity).
  split; [exact H1|]. split; [exact H2|].
  destruct (sampling_interval_and_selection Toy.decode Toy.imencode_jpg
              Toy.b64encode Toy.tmp_name Toy.model Toy.clip ∅ H1 H2)
    as (p & Hp & Hfps & Hint & _ & _ & _ & Hfirst).
  exists p. split; [exact Hp|]. split.
  - rewrite Hint, Hfps. reflexivity.
  - apply Hfirst. vm_compute. discriminate.
Defined.

Lemma frames_sorted_and_exact_witness :
  py_int (CAP_PROP_FPS (Toy.decode Toy.clip)) ≠ 0 /\
  detector_succeeds Toy.model (Toy.decode Toy.clip) /\
  exists p,
    (Toy.handler Toy.clip ∅).2 = inr p /\
    NoDup (frame_number <$> frames p) /\
    forall r, r ∈ frames p -> 0 <= frame_number r < 5.
Proof.
  assert (H1 : py_int (CAP_PROP_FPS (Toy.decode Toy.clip)) ≠ 0)
    by (vm_compute; discriminate).
  assert (H2 : detector_succeeds Toy.model (Toy.decode Toy.clip))
    by (apply all_detected_succeeds; reflexivity).
  split; [exact H1|]. split; [exact H2|].
  destruct (frames_sorted_and_exact Toy.decode Toy.imencode_jpg
              Toy.b64encode Toy.tmp_name Toy.model Toy.clip ∅ H1 H2)
    as (p & Hp & _ & Hnd & _ & Hb & _).
  exists p. split; [exact Hp|]. split; [exact Hnd|]. exact Hb.
Defined.

(** The claim of C3 as written fails here: the container declares no frame,
    one frame decodes, and its record is numbered 0, which is not below the
    reported count 0. *)
Lemma frame_number_beyond_reported_count :
  0 < py_int (CAP_PROP_FPS (Toy.decode Toy.understated)) /\
  detector_succeeds Toy.model (Toy.decode Toy.understated) /\
  exists p r,
    (Toy.handler Toy.understated ∅).2 = inr p /\
    r ∈ frames p /\
    ~ frame_number r < total_frames p.
Proof.
  split; [reflexivity|]. split; [apply all_detected_succeeds; reflexivity|].
  eexists. eexists. split; [reflexivity|]. split.
  - apply list_elem_of_here.
  - vm_compute. discriminate.
Qed.

Lemma zero_frame_rate_fails_witness :
  py_int (CAP_PROP_FPS (Toy.decode Toy.zero_rate)) = 0 /\
  (Toy.handler Toy.zero_rate ∅).2 =
    inl {| status_code := 500; detail := "division by zero" |}.
Proof.
  split; [reflexivity|].
  apply (zero_frame_rate_fails Toy.decode Toy.imencode_jpg Toy.b64encode
           Toy.tmp_name Toy.model Toy.zero_rate ∅).
  reflexivity.
Defined.

(** The claim of C4 as written fails here: the frame rate is -1 and the
    handler answers with a payload, with a negative duration and negative
    timestamps. *)
Lemma negative_frame_rate_is_answered :
  py_int (CAP_PROP_FPS (Toy.decode Toy.negative_rate)) <= 0 /\
  exists p,
    (Toy.handler Toy.negative_rate ∅).2 = inr p /\
    fps p = -1 /\
    (duration p == -3)%Q /\
    timestamp <$> frames p = [0; -1; -2]%Q.
Proof.
  split; [by vm_compute|].
  eexists. split; [reflexivity|]. cbn. repeat split.
Qed.

Lemma timestamps_and_duration_witness :
  py_int (CAP_PROP_FPS (Toy.decode Toy.clip)) ≠ 0 /\
  detector_succeeds Toy.model (Toy.decode Toy.clip) /\
  exists p,
    (Toy.handler Toy.clip ∅).2 = inr p /\
    duration p = (inject_Z 5 / inject_Z 4)%Q.
Proof.
  assert (H1 : py_int (CAP_PROP_FPS (Toy.decode Toy.clip)) ≠ 0)
    by (vm_compute; discriminate).
  assert (H2 : detector_succeeds Toy.model (Toy.decode Toy.clip))
    by (apply all_detected_succeeds; reflexivity).
  split; [exact H1|]. split; [exact H2|].
  destruct (timestamps_and_duration Toy.decode Toy.imencode_jpg
              Toy.b64encode Toy.tmp_name Toy.model Toy.clip ∅ H1 H2)
    as (p & Hp & Hfps & Htotal & _ & Hdur).
  exists p. split; [exact Hp|]. rewrite Hdur, Hfps, Htotal. reflexivity.
Defined.

Lemma ten_seconds_at_30_fps_witness :
  py_int (CAP_PROP_FPS (Toy.decode Toy.long_clip)) = 30 /\
  py_int (CAP_PROP_FRAME_COUNT (Toy.decode Toy.long_clip)) = 300 /\
  length (stream (Toy.decode Toy.long_clip)) = 300%nat /\
  detector_succeeds Toy.model (Toy.decode Toy.long_clip) /\
  exists p,
    (Toy.handler Toy.long_clip ∅).2 = inr p /\
    frame_interval p = 15 /\
    length (frames p) = 20%nat.
Proof.
  assert (H4 : detector_succeeds Toy.model (Toy.decode Toy.long_clip))
    by (apply all_detected_succeeds; vm_compute; reflexivity).
  split; [reflexivity|]. split; [reflexivity|]. split; [reflexivity|].
  split; [exact H4|].
  destruct (ten_seconds_at_30_fps Toy.decode Toy.imencode_jpg
              Toy.b64encode Toy.tmp_name Toy.model Toy.long_clip ∅
              eq_refl eq_refl eq_refl H4)
    as (p & Hp & Hint & _ & Hlen & _).
  exists p. split; [exact Hp|]. split; [exact Hint|exact Hlen].
Defined.

Lemma empty_detections_are_kept_witness :
  py_int (CAP_PROP_FPS (Toy.decode Toy.clip)) ≠ 0 /\
  detector_succeeds Toy.model (Toy.decode Toy.clip) /\
  exists p,
    (Toy.handler Toy.clip ∅).2 = inr p /\
    length (frames p) = 3%nat /\
    exists r, r ∈ frames p /\ frame_number r = 4 /\ detections r = [].
Proof.
  assert (H1 : py_int (CAP_PROP_FPS (Toy.decode Toy.clip)) ≠ 0)
    by (vm_compute; discriminate).
  assert (H2 : detector_succeeds Toy.model (Toy.decode Toy.clip))
    by (apply all_detected_succeeds; reflexivity).
  split; [exact H1|]. split; [exact H2|].
  destruct (empty_detections_are_kept Toy.decode Toy.imencode_jpg
              Toy.b64encode Toy.tmp_name Toy.model Toy.clip ∅ H1 H2)
    as (p & Hp & Hlen & Hkept).
  exists p. split; [exact Hp|].
  assert (Hint : frame_interval p = 2).
  { change (Toy.handler Toy.clip ∅).2 with
      (predict_video_frames Toy.decode Toy.imencode_jpg Toy.b64encode
         Toy.tmp_name Toy.model Toy.clip ∅).2 in Hp.
    vm_compute in Hp. injection Hp as <-. reflexivity. }
  rewrite Hint in *. split.
  - rewrite Hlen. reflexivity.
  - apply (Hkept 4%nat (Toy.gray Byte.x00)); [reflexivity|reflexivity|].
    left. reflexivity.
Defined.

Lemma detector_failure_aborts_witness :
  stream (Toy.decode Toy.failing) !! 1%nat = Some (Toy.gray Byte.xff) /\
  1 mod interval_of (Toy.decode Toy.failing) = 0 /\
  predict Toy.model (cvtColor_BGR2RGB (Toy.gray Byte.xff)) (25 # 100) =
    inl (RuntimeError "CUDA out of memory") /\
  (Toy.handler Toy.failing ∅).2 =
    inl {| status_code := 500; detail := "CUDA out of memory" |}.
Proof.
  split; [reflexivity|]. split; [reflexivity|]. split; [reflexivity|].
  apply (detector_failure_aborts Toy.decode Toy.imencode_jpg Toy.b64encode
           Toy.tmp_name Toy.model Toy.failing ∅ 1%nat (Toy.gray Byte.xff)
           (RuntimeError "CUDA out of memory") eq_refl eq_refl eq_refl).
  - vm_compute. discriminate.
  - intros [|m] g Hlt Hg _; [|lia].
    injection Hg as <-. eexists. reflexivity.
Defined.

Lemma empty_video_is_success_witness :
  0 < py_int (CAP_PROP_FPS (Toy.decode Toy.empty_clip)) /\
  stream (Toy.decode Toy.empty_clip) = [] /\
  exists p,
    (Toy.handler Toy.empty_clip ∅).2 = inr p /\
    frames p = [] /\
    message p = "Processed 0 frames" /\
    (duration p == 0)%Q.
Proof.
  split; [reflexivity|]. split; [reflexivity|].
  destruct (empty_video_is_success Toy.decode Toy.imencode_jpg Toy.b64encode
              Toy.tmp_name Toy.model Toy.empty_clip ∅ eq_refl eq_refl)
    as [(p & Hp & _ & Hframes & Hmsg & _ & Hdur) _].
  exists p. split; [exact Hp|]. split; [exact Hframes|].
  split; [exact Hmsg|]. apply Hdur. reflexivity.
Defined.

(** The claim of C10 as written fails here: the frame rate is 30, no frame
    decodes, and the duration in the payload is the 300 declared frames over
    30, not 0. *)
Lemma empty_stream_nonzero_duration :
  0 < py_int (CAP_PROP_FPS (Toy.decode Toy.hollow)) /\
  stream (Toy.decode Toy.hollow) = [] /\
  exists p,
    (Toy.handler Toy.hollow ∅).2 = inr p /\
    frames p = [] /\
    (duration p == 10)%Q /\
    ~ (duration p == 0)%Q.
Proof.
  split; [reflexivity|]. split; [reflexivity|].
  eexists. split; [reflexivity|]. cbn. repeat split.
  vm_compute. discriminate.
Qed.

(** The whole answer to the five-frame clip, as a caller sees it. *)
Example clip_response :
  response_view (Toy.handler Toy.clip ∅).2 =
  inr (true, 4, 5, 5 # 4, 2,
       [(0, 0 # 4, [ {| class_name := "crack"; confidence := 9 # 10;
                        bbox := [1; 2; 3; 4]%Q; class_id := 2 |} ]);
        (2, 2 # 4, []);
        (4, 4 # 4, [])],
       "Processed 3 frames").
Proof. reflexivity. Qed.

(** An unknown class id surfaces as the [KeyError]'s text. *)
Example unknown_class_response :
  (Toy.handler
     (Toy.header Byte.x02 Byte.x00 Byte.x01 ++ [Byte.x04]) ∅).2 =
  inl {| status_code := 500; detail := "4" |}.
Proof. reflexivity. Qed.

(** ** More on the frames handler *)

Lemma traverse_ext_in {A B} (f g : A -> Exc B) l :
  (forall x, x ∈ l -> f x = g x) -> traverse f l = traverse g l.
Proof.
  induction l as [|x l IH]; simpl; intros H; [done|].
  rewrite (H x) by apply list_elem_of_here.
  rewrite IH; [done|]. intros y Hy. apply H. by apply list_elem_of_further.
Qed.

Lemma ceil_div_succ_multiple n k :
  1 <= k -> 0 <= n -> n mod k = 0 ->
  ceil_div (n + 1) k = ceil_div n k + 1 /\ n = ceil_div n k * k.
Proof.
  intros Hk Hn Hm. unfold ceil_div.
  pose proof (Z.div_mod n k ltac:(lia)) as Hdm. rewrite Hm in Hdm.
  assert (H1 : n / k + 1 = (n + 1 + k - 1) / k).
  { apply (Z.div_unique _ _ _ 0); lia. }
  assert (H2 : n / k = (n + k - 1) / k).
  { apply (Z.div_unique _ _ _ (k - 1)); lia. }
  rewrite <- H1, <- H2. lia.
Qed.

Lemma ceil_div_succ_other n k :
  1 <= k -> 0 <= n -> n mod k ≠ 0 -> ceil_div (n + 1) k = ceil_div n k.
Proof.
  intros Hk Hn Hm. unfold ceil_div.
  pose proof (Z.div_mod n k ltac:(lia)) as Hdm.
  pose proof (Z.mod_pos_bound n k ltac:(lia)) as Hr.
  assert (H1 : n / k + 1 = (n + 1 + k - 1) / k).
  { apply (Z.div_unique _ _ _ (n mod k)); lia. }
  assert (H2 : n / k + 1 = (n + k - 1) / k).
  { apply (Z.div_unique _ _ _ (n mod k - 1)); lia. }
  lia.
Qed.

Lemma ceil_div_nonneg n k : 1 <= k -> 0 <= n -> 0 <= ceil_div n k.
Proof. intros. unfold ceil_div. apply Z.div_pos; lia. Qed.

Lemma filter_multiples k (n : nat) :
  1 <= k ->
  filter (fun i => i mod k = 0) (seqZ 0 (Z.of_nat n)) =
  (fun j => j * k) <$> seqZ 0 (ceil_div (Z.of_nat n) k).
Proof.
  intros Hk. induction n as [|n IH].
  - unfold ceil_div. rewrite Z.div_small by lia. done.
  - rewrite seqZ_S, filter_app, IH, Z.add_0_l.
    replace (Z.of_nat (S n)) with (Z.of_nat n + 1) by lia.
    rewrite filter_cons, filter_nil.
    pose proof (ceil_div_nonneg (Z.of_nat n) k Hk ltac:(lia)) as Hc.
    destruct (decide (Z.of_nat n mod k = 0)) as [Hm|Hm].
    + destruct (ceil_div_succ_multiple (Z.of_nat n) k Hk ltac:(lia) Hm)
        as [-> Hn].
      rewrite seqZ_app by lia. rewrite fmap_app. f_equal.
      rewrite Z.add_0_l, seqZ_cons, seqZ_nil by lia. cbn. by rewrite <- Hn.
    + rewrite ceil_div_succ_other by (done || lia). by rewrite app_nil_r.
Qed.

Section detections.
Variable model : YOLO.

Lemma box_detection_inr b d :
  box_detection model b = inr d <-> box_matches model b d.
Proof.
  unfold box_detection, box_matches, names_getitem.
  destruct (xyxy b) as [[[x1 y1] x2] y2].
  destruct (names model !! py_int (cls b)) as [nm|]; simpl; split.
  - by intros [= <-].
  - destruct d as [c k bb i]. simpl. by intros ([= ->] & -> & -> & ->).
  - done.
  - by intros [? _].
Qed.

Lemma box_detection_inl b e :
  box_detection model b = inl e <->
  names model !! py_int (cls b) = None /\ e = KeyError (py_int (cls b)).
Proof.
  unfold box_detection, names_getitem.
  destruct (xyxy b) as [[[x1 y1] x2] y2].
  destruct (names model !! py_int (cls b)) as [nm|]; simpl; split.
  - done.
  - by intros [? _].
  - by intros [= <-].
  - by intros [_ ->].
Qed.

Lemma for_boxes_inr boxes acc ds :
  for_boxes model boxes acc = inr ds <->
  exists ds', ds = acc ++ ds' /\ Forall2 (box_matches model) boxes ds'.
Proof.
  revert acc. induction boxes as [|b boxes IH]; intros acc; simpl.
  - split.
    + intros [= <-]. exists []. by rewrite app_nil_r.
    + intros (ds' & -> & ->%Forall2_nil_inv_l). by rewrite app_nil_r.
  - destruct (box_detection model b) as [e|d] eqn:Hb; simpl.
    + split; [done|]. intros (ds' & _ & Hall).
      apply Forall2_cons_inv_l in Hall as (d & ? & Hd%box_detection_inr & _).
      by rewrite Hb in Hd.
    + rewrite IH. apply box_detection_inr in Hb. split.
      * intros (ds' & -> & Hall). exists (d :: ds').
        rewrite <- app_assoc. split; [done|]. by constructor.
      * intros (ds' & -> & Hall).
        apply Forall2_cons_inv_l in Hall as (d' & ds'' & Hd' & Hall & ->).
        assert (d' = d) as ->.
        { destruct d as [c k bb i], d' as [c' k' bb' i'].
          destruct Hb as (Hn & ? & ? & ?), Hd' as (Hn' & ? & ? & ?).
          simpl in *. subst. rewrite Hn in Hn'. by injection Hn' as ->. }
        exists ds''. by rewrite <- app_assoc.
Qed.

Lemma for_boxes_first_unknown known b rest acc :
  Forall (fun b => is_Some (names model !! py_int (cls b))) known ->
  names model !! py_int (cls b) = None ->
  for_boxes model (known ++ b :: rest) acc = inl (KeyError (py_int (cls b))).
Proof.
  intros Hknown Hb. revert acc.
  induction Hknown as [|b' known [nm Hnm] _ IH]; intros acc; simpl.
  - assert (box_detection model b = inl (KeyError (py_int (cls b)))) as ->
      by by apply box_detection_inl.
    done.
  - destruct (box_detection model b') as [e|d] eqn:Hb'; simpl; [|apply IH].
    apply box_detection_inl in Hb' as [Hnone _]. by rewrite Hnm in Hnone.
Qed.

Lemma detect_inr f ds :
  detect model f = inr ds <->
  exists results,
    predict model (cvtColor_BGR2RGB f) (25 # 100) = inr results /\
    Forall2 (box_matches model) (reported_boxes results) ds.
Proof.
  unfold detect.
  destruct (predict model _ _) as [e|[boxes|]]; simpl.
  - split; [done|]. by intros (? & ? & _).
  - rewrite for_boxes_inr. split.
    + intros (ds' & -> & Hall). by eexists.
    + intros (results & [= <-] & Hall). by exists ds.
  - split.
    + intros [= <-]. eexists. split; [done|]. constructor.
    + intros (results & [= <-] & Hall). simpl in Hall.
      by apply Forall2_nil_inv_l in Hall as ->.
Qed.

End detections.

Section more_runs.
Variable decode : bytes -> VideoCapture.
Variable imencode_jpg : Image -> bytes.
Variable b64encode : bytes -> string.
Variable tmp_name : FS -> string.
Variable model : YOLO.

Local Abbreviation handle :=
  (predict_video_frames decode imencode_jpg b64encode tmp_name model).
Local Abbreviation record := (record_of imencode_jpg b64encode).

Lemma records_for_detector_succeeds cap recs :
  records_for imencode_jpg b64encode model cap recs ->
  detector_succeeds model cap.
Proof.
  intros Hrecs n f Hn Hm.
  destruct (records_for_sampled _ _ _ _ _ _ _ Hrecs Hn Hm) as (d & Hd & _).
  by exists d.
Qed.

Lemma records_for_positions cap recs :
  records_for imencode_jpg b64encode model cap recs ->
  frame_number <$> recs =
  (fun j => j * interval_of cap) <$>
    seqZ 0 (ceil_div (Z.of_nat (length (stream cap))) (interval_of cap)).
Proof.
  intros Hrecs. rewrite (records_for_indices _ _ _ _ _ Hrecs).
  rewrite sampled_indices. apply filter_multiples, interval_of_pos.
Qed.

(** The first sampled frame on which detection raises decides the answer. *)
Lemma handle_first_failure content fs (n : nat) f e :
  py_int (CAP_PROP_FPS (decode content)) ≠ 0 ->
  stream (decode content) !! n = Some f ->
  Z.of_nat n mod interval_of (decode content) = 0 ->
  detect model f = inl e ->
  (forall (m : nat) g, (m < n)%nat ->
     stream (decode content) !! m = Some g ->
     Z.of_nat m mod interval_of (decode content) = 0 ->
     exists d, detect model g = inr d) ->
  handle content fs =
    (<[tmp_name fs := content]> fs,
     inl {| status_code := 500; detail := str e |}).
Proof.
  intros Hfps Hn Hm He Hbefore.
  rewrite predict_video_frames_pipeline, pipeline_nonzero by done.
  set (step := fun p : Z * Image => _).
  rewrite (sampled_split _ 0 _ n f Hn) by (by rewrite Z.add_0_l).
  rewrite Z.add_0_l.
  rewrite (traverse_first_failure step _ _ _ e); [done| |].
  - apply Forall_forall. intros [i g] (m & Hg & -> & Hi)%elem_of_sampled.
    rewrite Z.add_0_l in Hi. apply lookup_take_Some in Hg as [Hg Hlt].
    destruct (Hbefore m g Hlt Hg Hi) as [d Hd].
    unfold step. simpl. rewrite Hd. by eexists.
  - unfold step. simpl. by rewrite He.
Qed.

End more_runs.

Section frames_extras.
Variable decode : bytes -> VideoCapture.
Variable imencode_jpg : Image -> bytes.
Variable b64encode : bytes -> string.
Variable tmp_name : FS -> string.
Variable model : YOLO.

Local Abbreviation handle :=
  (predict_video_frames decode imencode_jpg b64encode tmp_name model).
Local Abbreviation fps_of := (fun content => py_int (CAP_PROP_FPS (decode content))).

(** X1: the frames handler answers with a payload exactly when the frame
    rate read from the capture is not zero and detection goes through on
    every sampled frame; in every other case the answer is an error. *)
Theorem payload_exactly_when content fs :
  (exists p, (handle content fs).2 = inr p) <->
  fps_of content ≠ 0 /\ detector_succeeds model (decode content).
Proof.
  split.
  - intros [p (Hfps & recs & _ & Hrecs)%handle_inr].
    split; [done|]. by eapply records_for_detector_succeeds.
  - intros [Hfps Hdet].
    destruct (handle_success decode imencode_jpg b64encode tmp_name model
                content fs Hfps Hdet) as (recs & -> & _).
    by eexists.
Qed.

(** X2: whatever the outcome, the frames handler leaves every file other
    than its own temporary file as it was. *)
Theorem other_files_untouched content fs (path : string) :
  path ≠ tmp_name fs ->
  (handle content fs).1 !! path = fs !! path.
Proof.
  intros Hne. rewrite predict_video_frames_pipeline.
  destruct (pipeline _ _ _ _) as [e|p]; simpl.
  - by rewrite lookup_insert_ne.
  - by rewrite lookup_delete_ne, lookup_insert_ne.
Qed.

(** X3: when the frames handler succeeds and the temporary name was not in
    use before the request, the file system afterwards is exactly the one
    before the request. *)
Theorem file_system_restored_on_success content fs p :
  (handle content fs).2 = inr p ->
  fs !! tmp_name fs = None ->
  (handle content fs).1 = fs.
Proof.
  rewrite predict_video_frames_pipeline.
  destruct (pipeline _ _ _ _) as [e|p']; simpl; [done|].
  intros _ Hfresh. rewrite delete_insert_eq. by apply delete_id.
Qed.

(** X4: in a successful response the j-th record is frame [j * frame_interval],
    the number of records is the number of delivered frames divided by the
    interval, rounded up, and the message reports that number. *)
Theorem records_at_regular_positions content fs :
  fps_of content ≠ 0 ->
  detector_succeeds model (decode content) ->
  exists p,
    (handle content fs).2 = inr p /\
    frame_number <$> frames p =
      (fun j => j * frame_interval p) <$>
        seqZ 0 ((Z.of_nat (length (stream (decode content)))
                 + frame_interval p - 1) / frame_interval p) /\
    Z.of_nat (length (frames p)) =
      (Z.of_nat (length (stream (decode content))) + frame_interval p - 1)
        / frame_interval p /\
    message p = "Processed " +:+ pretty (length (frames p)) +:+ " frames".
Proof.
  intros Hfps Hdet.
  destruct (handle_success decode imencode_jpg b64encode tmp_name model
              content fs Hfps Hdet) as (recs & Hrun & Hrecs).
  exists (payload_of (decode content) recs). rewrite Hrun. cbn.
  pose proof (records_for_positions _ _ _ _ _ Hrecs) as Hpos.
  split; [done|]. split; [exact Hpos|]. split; [|done].
  rewrite <- (length_fmap frame_number), Hpos, length_fmap, length_seqZ.
  pose proof (ceil_div_nonneg (Z.of_nat (length (stream (decode content))))
                (interval_of (decode content))
                (interval_of_pos _) ltac:(lia)) as Hc.
  unfold ceil_div in *. lia.
Qed.

(** X5: in a successful response the j-th record is built from the frame
    the capture delivered at index [j * frame_interval]: its image is the
    encoding of that frame as delivered, not of the colour-converted copy
    given to the detector, and its detections are those of that frame. *)
Theorem record_built_from_its_frame content fs :
  fps_of content ≠ 0 ->
  detector_succeeds model (decode content) ->
  exists p,
    (handle content fs).2 = inr p /\
    forall (j : nat) r,
      frames p !! j = Some r ->
      frame_number r = Z.of_nat j * frame_interval p /\
      exists f,
        stream (decode content) !! Z.to_nat (frame_number r) = Some f /\
        frame_image r = b64encode (imencode_jpg f) /\
        detect model f = inr (detections r).
Proof.
  intros Hfps Hdet.
  destruct (handle_success decode imencode_jpg b64encode tmp_name model
              content fs Hfps Hdet) as (recs & Hrun & Hrecs).
  exists (payload_of (decode content) recs). rewrite Hrun. cbn.
  split; [done|]. intros j r Hj.
  assert (Hnum : (frame_number <$> recs) !! j = Some (frame_number r))
    by (by rewrite list_lookup_fmap, Hj).
  rewrite (records_for_positions _ _ _ _ _ Hrecs), list_lookup_fmap in Hnum.
  destruct (seqZ _ _ !! j) as [i|] eqn:Hi; [|done].
  apply lookup_seqZ in Hi as [-> _]. injection Hnum as Hnum.
  rewrite Z.add_0_l in Hnum. split; [done|].
  destruct (records_for_elem_of _ _ _ _ _ _ Hrecs (list_elem_of_lookup_2 _ _ _ Hj))
    as (n & f & d & Hn & _ & Hd & ->).
  exists f. cbn. by rewrite Nat2Z.id.
Qed.

(** X6: in a successful response the detections of every record correspond
    one to one, in order, to the boxes the detector reported for that
    frame's RGB copy at threshold 0.25: the class id is [int(cls)], the
    class name is [names[class_id]], confidence and the four coordinates
    are copied; [boxes = None] gives an empty list. *)
Theorem detections_match_boxes content fs :
  fps_of content ≠ 0 ->
  detector_succeeds model (decode content) ->
  exists p,
    (handle content fs).2 = inr p /\
    forall r, r ∈ frames p ->
      exists f results,
        stream (decode content) !! Z.to_nat (frame_number r) = Some f /\
        predict model (cvtColor_BGR2RGB f) (25 # 100) = inr results /\
        Forall2 (box_matches model) (reported_boxes results) (detections r).
Proof.
  intros Hfps Hdet.
  destruct (handle_success decode imencode_jpg b64encode tmp_name model
              content fs Hfps Hdet) as (recs & Hrun & Hrecs).
  exists (payload_of (decode content) recs). rewrite Hrun. cbn.
  split; [done|]. intros r Hr.
  destruct (records_for_elem_of _ _ _ _ _ _ Hrecs Hr)
    as (n & f & d & Hn & _ & Hd & ->).
  apply detect_inr in Hd as (results & Hp & Hall).
  exists f, results. cbn. by rewrite Nat2Z.id.
Qed.

(** X7: if the first sampled frame on which detection does not go through
    is one where the detector reports a box whose class id has no entry in
    [model.names], the answer is a 500 whose detail is that class id in
    decimal (the text of the [KeyError]). *)
Theorem unnamed_class_is_error content fs (n : nat) f known b rest :
  fps_of content ≠ 0 ->
  stream (decode content) !! n = Some f ->
  Z.of_nat n mod interval_of (decode content) = 0 ->
  predict model (cvtColor_BGR2RGB f) (25 # 100) =
    inr (Some (known ++ b :: rest)) ->
  Forall (fun b' => is_Some (names model !! py_int (cls b'))) known ->
  names model !! py_int (cls b) = None ->
  (forall (m : nat) g, (m < n)%nat ->
     stream (decode content) !! m = Some g ->
     Z.of_nat m mod interval_of (decode content) = 0 ->
     exists d, detect model g = inr d) ->
  (handle content fs).2 =
    inl {| status_code := 500; detail := pretty (py_int (cls b)) |}.
Proof.
  intros Hfps Hn Hm Hp Hknown Hb Hbefore.
  assert (He : detect model f = inl (KeyError (py_int (cls b)))).
  { unfold detect. rewrite Hp. simpl. by apply for_boxes_first_unknown. }
  by rewrite (handle_first_failure decode imencode_jpg b64encode tmp_name model
                content fs n f _ Hfps Hn Hm He Hbefore).
Qed.

End frames_extras.

(** ** Timing of the records *)

Lemma timestamp_lt i j fps :
  0 < fps -> i < j ->
  (inject_Z i / inject_Z fps < inject_Z j / inject_Z fps)%Q.
Proof.
  intros Hf Hij. unfold Qdiv. apply Qmult_lt_compat_r.
  - apply Qinv_lt_0_compat. change 0%Q with (inject_Z 0). by rewrite <- Zlt_Qlt.
  - by rewrite <- Zlt_Qlt.
Qed.

Lemma timestamp_nonneg i fps :
  0 <= i -> 0 < fps -> (0 <= inject_Z i / inject_Z fps)%Q.
Proof.
  intros Hi Hf. unfold Qdiv. apply Qmult_le_0_compat.
  - change 0%Q with (inject_Z 0). by rewrite <- Zle_Qle.
  - apply Qinv_le_0_compat. change 0%Q with (inject_Z 0).
    rewrite <- Zle_Qle. lia.
Qed.

Lemma timestamp_half j h :
  1 <= h -> (inject_Z (j * h) / inject_Z (2 * h) == inject_Z j / 2)%Q.
Proof.
  intros Hh. rewrite !inject_Z_mult. field.
  intros H. apply (inject_Z_injective h 0) in H. lia.
Qed.

Lemma for_boxes_names model1 model2 boxes acc :
  names model1 = names model2 ->
  for_boxes model1 boxes acc = for_boxes model2 boxes acc.
Proof.
  intros Hnames. revert acc. induction boxes as [|b boxes IH]; intros acc; [done|].
  simpl. unfold box_detection, names_getitem. rewrite Hnames.
  destruct (xyxy b) as [[[x1 y1] x2] y2].
  destruct (names model2 !! py_int (cls b)); simpl; [apply IH|done].
Qed.

Section timing.
Variable decode : bytes -> VideoCapture.
Variable imencode_jpg : Image -> bytes.
Variable b64encode : bytes -> string.
Variable tmp_name : FS -> string.
Variable model : YOLO.

Local Abbreviation handle :=
  (predict_video_frames decode imencode_jpg b64encode tmp_name model).
Local Abbreviation fps_of := (fun content => py_int (CAP_PROP_FPS (decode content))).

(** X9: for a positive frame rate the timestamps in a successful response
    start at or after 0 and strictly increase along the frames array. *)
Theorem timestamps_increase content fs :
  0 < fps_of content ->
  detector_succeeds model (decode content) ->
  exists p,
    (handle content fs).2 = inr p /\
    StronglySorted Qlt (timestamp <$> frames p) /\
    forall r, r ∈ frames p -> (0 <= timestamp r)%Q.
Proof.
  intros Hfps Hdet.
  assert (Hnz : fps_of content ≠ 0) by lia.
  destruct (handle_success decode imencode_jpg b64encode tmp_name model
              content fs Hnz Hdet) as (recs & Hrun & Hrecs).
  exists (payload_of (decode content) recs). rewrite Hrun. cbn.
  split; [done|].
  assert (Hts : timestamp <$> recs =
            (fun i => (inject_Z i / inject_Z (fps_of content))%Q) <$>
              (frame_number <$> recs)).
  { rewrite <- list_fmap_compose. apply Forall_fmap_ext, Forall_forall.
    intros r Hr.
    by destruct (records_for_elem_of _ _ _ _ _ _ Hrecs Hr)
      as (n & f & d & _ & _ & _ & ->). }
  split.
  - rewrite Hts. apply (StronglySorted_fmap _ Z.lt).
    + intros i j. by apply timestamp_lt.
    + rewrite (records_for_indices _ _ _ _ _ Hrecs). apply sampled_sorted.
  - intros r Hr.
    destruct (records_for_elem_of _ _ _ _ _ _ Hrecs Hr)
      as (n & f & d & _ & _ & _ & ->). cbn.
    apply timestamp_nonneg; lia.
Qed.

(** X10: for an even positive frame rate the records of a successful
    response are half a second apart: the timestamp of the j-th record is
    j / 2 seconds. *)
Theorem even_rate_half_second_steps content fs :
  0 < fps_of content ->
  fps_of content mod 2 = 0 ->
  detector_succeeds model (decode content) ->
  exists p,
    (handle content fs).2 = inr p /\
    forall (j : nat) r,
      frames p !! j = Some r ->
      (timestamp r == inject_Z (Z.of_nat j) / 2)%Q.
Proof.
  intros Hfps Heven Hdet. cbv beta in *.
  assert (Hnz : py_int (CAP_PROP_FPS (decode content)) ≠ 0) by lia.
  destruct (handle_success decode imencode_jpg b64encode tmp_name model
              content fs Hnz Hdet) as (recs & Hrun & Hrecs).
  exists (payload_of (decode content) recs). rewrite Hrun. cbn.
  split; [done|]. intros j r Hj.
  assert (Hnum : (frame_number <$> recs) !! j = Some (frame_number r))
    by (by rewrite list_lookup_fmap, Hj).
  rewrite (records_for_positions _ _ _ _ _ Hrecs), list_lookup_fmap in Hnum.
  destruct (seqZ _ _ !! j) as [i|] eqn:Hi; [|done].
  apply lookup_seqZ in Hi as [-> _]. injection Hnum as Hnum.
  rewrite Z.add_0_l in Hnum.
  destruct (records_for_elem_of _ _ _ _ _ _ Hrecs (list_elem_of_lookup_2 _ _ _ Hj))
    as (n & f & d & _ & _ & _ & ->).
  cbn in Hnum. cbn. rewrite <- Hnum. unfold interval_of.
  pose proof (Z.div_mod (py_int (CAP_PROP_FPS (decode content))) 2
                ltac:(lia)) as Hdm.
  rewrite Heven, Z.add_0_r in Hdm.
  rewrite Z.max_r by lia. rewrite Hdm at 2.
  apply timestamp_half. lia.
Qed.

End timing.

(** X8: the detector is consulted on the sampled frames only, on their RGB
    copies and at threshold 0.25: two detectors with the same [names] that
    agree there give the same answer and leave the same file system,
    whatever they do on other frames or at other thresholds. *)
Theorem detector_consulted_on_sampled_frames_only
    decode imencode_jpg b64encode tmp_name model1 model2 content fs :
  names model1 = names model2 ->
  (forall (n : nat) f,
     stream (decode content) !! n = Some f ->
     Z.of_nat n mod interval_of (decode content) = 0 ->
     predict model1 (cvtColor_BGR2RGB f) (25 # 100) =
     predict model2 (cvtColor_BGR2RGB f) (25 # 100)) ->
  predict_video_frames decode imencode_jpg b64encode tmp_name model1 content fs =
  predict_video_frames decode imencode_jpg b64encode tmp_name model2 content fs.
Proof.
  intros Hnames Hagree. rewrite !predict_video_frames_pipeline.
  assert (Hpipe : pipeline imencode_jpg b64encode model1 (decode content) =
                  pipeline imencode_jpg b64encode model2 (decode content)).
  { destruct (decide (py_int (CAP_PROP_FPS (decode content)) = 0)) as [Hz|Hnz].
    { by rewrite !pipeline_zero. }
    rewrite !pipeline_nonzero by done.
    erewrite traverse_ext_in; [done|].
    intros [i f] (n & Hn & -> & Hm)%elem_of_sampled. simpl.
    rewrite Z.add_0_l in Hm.
    assert (detect model1 f = detect model2 f) as ->; [|done].
    unfold detect. rewrite (Hagree n f Hn Hm).
    destruct (predict model2 _ _) as [e|[boxes|]]; simpl; [done| |done].
    by apply for_boxes_names. }
  by rewrite Hpipe.
Qed.

(** ** The image endpoint *)

Lemma for_boxes_app model l1 l2 acc :
  for_boxes model (l1 ++ l2) acc =
  (d <- for_boxes model l1 acc ;; for_boxes model l2 d).
Proof.
  revert acc. induction l1 as [|b l1 IH]; intros acc; simpl; [done|].
  destruct (box_detection model b); simpl; [done|apply IH].
Qed.

Lemma for_results_all_boxes model results acc :
  for_results model results acc = for_boxes model (all_boxes results) acc.
Proof.
  revert acc. induction results as [|r results IH]; intros acc; [done|].
  unfold all_boxes. cbn [for_results map concat]. rewrite for_boxes_app.
  fold (all_boxes results).
  destruct (boxes r) as [bs|]; simpl.
  - destruct (for_boxes model bs acc); simpl; [done|apply IH].
  - apply IH.
Qed.

Lemma first_item_inr {A} (l : list A) x :
  first_item l = inr x <-> exists rest, l = x :: rest.
Proof.
  destruct l as [|y l]; simpl; split.
  - done.
  - by intros [? ?].
  - intros [= ->]. by eexists.
  - by intros (rest & [= -> _]).
Qed.

Section image_facts.
Variable Image_open : bytes -> Exc PILImage.
Variable convert : PILImage -> string -> PILImage.
Variable predict_all : PILImage -> Q -> Exc (list Result).
Variable save_png : Image -> bytes.
Variable b64encode : bytes -> string.
Variable model : YOLO.

Local Abbreviation handle_image :=
  (predict_image Image_open convert predict_all save_png b64encode model).

(** The image given to the detector. *)
Local Abbreviation as_rgb :=
  (fun image : PILImage =>
     if decide (mode image = "RGB") then image else convert image "RGB").

(** X11: [predict_image] answers with a payload exactly when the upload
    opens as an image, prediction on it (converted to RGB unless it already
    is) returns a non-empty list of results and every box of every result
    has a named class; the detections then correspond one to one, in
    order, to all the boxes of all the results, [total_detections] is their
    number, and the annotated image is the plot of the first result. *)
Theorem image_payload_exactly_when contents p :
  handle_image contents = inr p <->
  exists image result0 rest,
    Image_open contents = inr image /\
    predict_all (as_rgb image) (25 # 100) = inr (result0 :: rest) /\
    Forall2 (box_matches model) (all_boxes (result0 :: rest))
      (image_detections p) /\
    total_detections p = length (all_boxes (result0 :: rest)) /\
    total_detections p = length (image_detections p) /\
    annotated_image p = b64encode (save_png (plot result0)) /\
    image_success p = true.
Proof.
  unfold predict_image, predict_image_try. split.
  - destruct (Image_open contents) as [e|image]; simpl; [done|].
    destruct (predict_all _ _) as [e|results] eqn:Hp; simpl; [done|].
    rewrite for_results_all_boxes.
    destruct (for_boxes model _ []) as [e|ds] eqn:Hds; simpl; [done|].
    destruct results as [|result0 rest]; simpl; [done|].
    intros [= <-]. simpl.
    apply for_boxes_inr in Hds as (ds' & -> & Hall). simpl.
    exists image, result0, rest. rewrite Hp.
    repeat split; try done. by apply Forall2_length in Hall.
  - intros (image & result0 & rest & -> & Hp & Hall & _ & Hlen & Himg & Hok).
    cbn [bind]. rewrite Hp. cbn [bind]. rewrite for_results_all_boxes.
    assert (for_boxes model (all_boxes (result0 :: rest)) [] =
            inr (image_detections p)) as ->.
    { apply for_boxes_inr. by exists (image_detections p). }
    simpl. destruct p as [ok ds img n]. simpl in *. by subst.
Qed.

(** X12: when the upload opens and prediction returns, but some box has a
    class id without an entry in [model.names], [predict_image] answers
    with a 500 whose detail is the first such class id in decimal. *)
Theorem image_unnamed_class_is_error contents image results known b rest :
  Image_open contents = inr image ->
  predict_all (as_rgb image) (25 # 100) = inr results ->
  all_boxes results = known ++ b :: rest ->
  Forall (fun b' => is_Some (names model !! py_int (cls b'))) known ->
  names model !! py_int (cls b) = None ->
  handle_image contents =
    inl {| status_code := 500; detail := pretty (py_int (cls b)) |}.
Proof.
  intros Hopen Hp Hboxes Hknown Hb.
  unfold predict_image, predict_image_try. rewrite Hopen. cbn [bind].
  rewrite Hp. cbn [bind]. rewrite for_results_all_boxes, Hboxes.
  by rewrite for_boxes_first_unknown.
Qed.

End image_facts.

(** ** The whole-video endpoint *)

Section video_facts.
Variable tmp_name : FS -> string.
Variable predict_save : string -> IO (list VideoResult).
Variable glob_mp4 : string -> FS -> list string.
Variable HTTPException_str : HTTPException -> string.

Local Abbreviation handle_video :=
  (predict_video tmp_name predict_save glob_mp4 HTTPException_str).
Local Abbreviation search := (find_output glob_mp4).

(** The handler, by what prediction does to the file system holding the
    temporary file. *)
Lemma predict_video_cases content fs :
  handle_video content fs =
  match predict_save (tmp_name fs) (<[tmp_name fs := content]> fs) with
  | (fs1, inl e) => (fs1, inl {| status_code := 500; detail := str e |})
  | (fs1, inr results) =>
      match fs1 !! tmp_name fs with
      | None =>
          (fs1, inl {| status_code := 500;
                       detail := str (FileNotFoundError (tmp_name fs)) |})
      | Some _ =>
          let fs2 := delete (tmp_name fs) fs1 in
          if output_found (search results fs1) fs2
          then (fs2, inr {| video_success := true;
                            output_video := default "" (search results fs1);
                            video_message := "Video processed successfully" |})
          else (fs2, inl {| status_code := 500;
                            detail := str (failed_to_process HTTPException_str) |})
      end
  end.
Proof.
  unfold predict_video, predict_video_try, NamedTemporaryFile_write, unlink,
    io_bind, io_ret, lift, ret, raise.
  cbv beta iota zeta.
  destruct (predict_save _ _) as [fs1 [e|results]]; [done|].
  cbv beta iota zeta.
  destruct (fs1 !! tmp_name fs) as [c|]; [|done].
  cbv beta iota zeta. by destruct (output_found _ _).
Qed.

Lemma find_output_Some results fs video :
  search results fs = Some video <->
  exists before result after d,
    results = before ++ result :: after /\
    Forall (fun r => forall d', save_dir r = Some d' -> glob_mp4 d' fs = []) before /\
    save_dir result = Some d /\
    head (glob_mp4 d fs) = Some video.
Proof.
  induction results as [|r results IH]; simpl.
  - split; [done|]. intros (before & ? & ? & ? & Heq & _).
    by destruct before.
  - assert (Hskip : (forall d', save_dir r = Some d' -> glob_mp4 d' fs = []) ->
              (search results fs = Some video <->
               exists before result after d,
                 r :: results = before ++ result :: after /\
                 Forall (fun r => forall d', save_dir r = Some d' ->
                                   glob_mp4 d' fs = []) before /\
                 save_dir result = Some d /\
                 head (glob_mp4 d fs) = Some video)).
    { intros Hr. rewrite IH. split.
      - intros (before & result & after & d & -> & Hall & Hd & Hv).
        exists (r :: before), result, after, d. repeat split; try done.
        by constructor.
      - intros ([|r' before] & result & after & d & Heq & Hall & Hd & Hv).
        + simpl in Heq. injection Heq as <- <-.
          rewrite (Hr d Hd) in Hv. done.
        + simpl in Heq. injection Heq as <- ->.
          apply Forall_cons in Hall as [_ Hall].
          by exists before, result, after, d. }
    destruct (save_dir r) as [d0|] eqn:Hd0.
    + destruct (glob_mp4 d0 fs) as [|v vs] eqn:Hg.
      * apply Hskip. by intros d' [= <-].
      * split.
        -- intros [= <-]. exists [], r, results, d0.
           repeat split; try done. by rewrite Hg.
        -- intros ([|r' before] & result & after & d & Heq & Hall & Hd & Hv).
           ++ simpl in Heq. injection Heq as <- <-.
              rewrite Hd0 in Hd. injection Hd as <-. rewrite Hg in Hv.
              by injection Hv as ->.
           ++ simpl in Heq. injection Heq as <- ->.
              apply Forall_cons in Hall as [Hr _].
              by rewrite (Hr d0 Hd0) in Hg.
    + apply Hskip. done.
Qed.

(** X13: once [model.predict] has returned, [predict_video] deletes its
    temporary file whether or not an output video is found; when
    [model.predict] raises, the file system is left as prediction left it,
    temporary file included. *)
Theorem video_final_file_system content fs fs1 outcome :
  predict_save (tmp_name fs) (<[tmp_name fs := content]> fs) = (fs1, outcome) ->
  is_Some (fs1 !! tmp_name fs) ->
  (handle_video content fs).1 =
    match outcome with
    | inr _ => delete (tmp_name fs) fs1
    | inl _ => fs1
    end.
Proof.
  intros Hp [c Hc]. rewrite predict_video_cases, Hp.
  destruct outcome as [e|results]; [done|]. rewrite Hc.
  cbv zeta. by destruct (output_found _ _).
Qed.

(** X14: a successful answer of [predict_video] names a non-empty path
    that exists once the temporary file is deleted, and that path is the
    first [.mp4] listed under the [save_dir] of the first result that has
    any. *)
Theorem video_success_names_first_output content fs p :
  (handle_video content fs).2 = inr p ->
  video_success p = true /\
  video_message p = "Video processed successfully" /\
  output_video p ≠ "" /\
  is_Some ((handle_video content fs).1 !! output_video p) /\
  exists fs1 before result after d,
    predict_save (tmp_name fs) (<[tmp_name fs := content]> fs) =
      (fs1, inr (before ++ result :: after)) /\
    Forall (fun r => forall d', save_dir r = Some d' -> glob_mp4 d' fs1 = []) before /\
    save_dir result = Some d /\
    head (glob_mp4 d fs1) = Some (output_video p).
Proof.
  rewrite predict_video_cases.
  destruct (predict_save _ _) as [fs1 [e|results]] eqn:Hp; [done|].
  destruct (fs1 !! tmp_name fs) as [c|]; [|done]. cbv zeta.
  destruct (output_found _ _) eqn:Hfound; [|done]. simpl.
  intros [= <-]. simpl.
  unfold output_found in Hfound.
  destruct (search results fs1) as [video|] eqn:Hsearch; [|done].
  simpl. destruct (decide (video = "")) as [|Hne]; [done|].
  unfold path_exists in Hfound. apply bool_decide_eq_true in Hfound.
  apply find_output_Some in Hsearch
    as (before & result & after & d & -> & Hall & Hd & Hv).
  repeat split; try done.
  by exists fs1, before, result, after, d.
Qed.

(** X15: when [model.predict] returns but no result has an [.mp4] under its
    [save_dir], [predict_video] answers 500; the [HTTPException] it raises
    for this is caught by its own [except] clause, so the detail is the
    text of that exception (status and message), not the bare message. *)
Theorem video_without_output_is_error content fs fs1 results :
  predict_save (tmp_name fs) (<[tmp_name fs := content]> fs) =
    (fs1, inr results) ->
  is_Some (fs1 !! tmp_name fs) ->
  Forall (fun r => forall d, save_dir r = Some d -> glob_mp4 d fs1 = []) results ->
  (handle_video content fs).2 =
    inl {| status_code := 500;
           detail := HTTPException_str
                       {| status_code := 500;
                          detail := "Failed to process video" |} |}.
Proof.
  intros Hp [c Hc] Hnone. rewrite predict_video_cases, Hp, Hc. cbv zeta.
  assert (search results fs1 = None) as ->; [|done].
  destruct (search results fs1) as [video|] eqn:Hs; [|done].
  apply find_output_Some in Hs
    as (before & result & after & d & -> & _ & Hd & Hv).
  apply Forall_app in Hnone as [_ [Hr _]%Forall_cons].
  by rewrite (Hr d Hd) in Hv.
Qed.

End video_facts.

(** ** The startup script *)

Lemma main_course w : startup_course w.
Proof.
  destruct (StartApp.exists_ w StartApp.model_file) eqn:H1;
    [|by apply no_model].
  destruct (StartApp.import_all w) as [e|] eqn:H2;
    [by eapply missing_requirement|].
  destruct (StartApp.exists_ w "backend") eqn:H3; [|by apply no_backend_dir].
  destruct (StartApp.popen_error w) as [e|] eqn:H4; [by eapply launch_failed|].
  destruct (StartApp.exists_ w "frontend/index.html") eqn:H5;
    [by apply running|by apply no_frontend].
Qed.

Ltac main_cases w :=
  destruct (main_course w)
    as [Hm|e Hm Hi|Hm Hi Hb|e (Hm & Hi & Hb) Hp|(Hm & Hi & Hb) Hp Hf
        |(Hm & Hi & Hb) Hp Hf];
  unfold StartApp.main, StartApp.check_requirements, StartApp.start_backend,
    StartApp.start_frontend, StartApp.ready_for_backend;
  rewrite ?Hm, ?Hi, ?Hb, ?Hp, ?Hf; cbn [negb fst snd];
  rewrite ?Hm, ?Hi, ?Hb, ?Hp, ?Hf; cbn [negb fst snd].

Local Set Warnings "-clear-no-such-hyp".

Ltac trace_solver :=
  repeat (rewrite ?elem_of_app, ?elem_of_cons, ?elem_of_nil);
  naive_solver.

(** X16: the server process is launched exactly when the model file is
    found, the three requirements import, the backend directory exists and
    [Popen] does not raise; it is then launched with the fixed command line
    (uvicorn, app:app, host 0.0.0.0, port 8000, reload) from the backend
    directory. *)
Theorem backend_launched_exactly_when w args cwd :
  StartApp.Popen args cwd ∈ (StartApp.main w).1 <->
  StartApp.ready_for_backend w /\ StartApp.popen_error w = None /\
  args = StartApp.server_args w /\ cwd = "backend".
Proof.
  main_cases w; try destruct (StartApp.interrupted w); trace_solver.
Qed.

(** X17: the browser is opened exactly when the server was launched and
    [frontend/index.html] exists under the working directory; the address
    is [file://] followed by the absolute path of that file. *)
Theorem browser_opened_exactly_when w url :
  StartApp.BrowserOpen url ∈ (StartApp.main w).1 <->
  StartApp.ready_for_backend w /\ StartApp.popen_error w = None /\
  StartApp.exists_ w "frontend/index.html" = true /\
  url = "file://" +:+ StartApp.absolute w "frontend/index.html".
Proof.
  main_cases w; try destruct (StartApp.interrupted w); trace_solver.
Qed.

(** X18: the browser is never opened before the server process has been
    launched: in the sequence of events the launch comes first. *)
Theorem browser_only_after_backend w url :
  StartApp.BrowserOpen url ∈ (StartApp.main w).1 ->
  exists before after,
    (StartApp.main w).1 = before ++ StartApp.BrowserOpen url :: after /\
    StartApp.Popen (StartApp.server_args w) "backend" ∈ before.
Proof.
  main_cases w; try (by trace_solver).
  intros Hin.
  assert (url = "file://" +:+ StartApp.absolute w "frontend/index.html") as ->.
  { revert Hin. destruct (StartApp.interrupted w); trace_solver. }
  eexists [_; _; _; _; _; _; _; _; _], _. split; [reflexivity|].
  trace_solver.
Qed.

(** X19: when the server was launched but [frontend/index.html] is missing,
    [main] returns without waiting for the server and without terminating
    it: the process is left running. *)
Theorem backend_left_running_when_frontend_missing w :
  StartApp.ready_for_backend w ->
  StartApp.popen_error w = None ->
  StartApp.exists_ w "frontend/index.html" = false ->
  StartApp.Popen (StartApp.server_args w) "backend" ∈ (StartApp.main w).1 /\
  (StartApp.Wait ∉ (StartApp.main w).1) /\
  (StartApp.Terminate ∉ (StartApp.main w).1) /\
  (StartApp.main w).2 = None.
Proof.
  intros (Hm' & Hi' & Hb') Hp' Hf'.
  main_cases w; try congruence.
  repeat split; trace_solver.
Qed.

(** X20: the script waits for the server exactly when the server was
    launched and the browser opened, and it terminates the server exactly
    when, in addition, it is interrupted while waiting. *)
Theorem terminate_exactly_on_interrupt w :
  (StartApp.Wait ∈ (StartApp.main w).1 <->
   StartApp.ready_for_backend w /\ StartApp.popen_error w = None /\
   StartApp.exists_ w "frontend/index.html" = true) /\
  (StartApp.Terminate ∈ (StartApp.main w).1 <->
   StartApp.ready_for_backend w /\ StartApp.popen_error w = None /\
   StartApp.exists_ w "frontend/index.html" = true /\
   StartApp.interrupted w = true).
Proof.
  main_cases w; try destruct (StartApp.interrupted w);
    split; trace_solver.
Qed.

(** ** Concrete runs of the further properties *)

Lemma other_files_untouched_witness :
  "/data/keep.bin" ≠ Toy.tmp_name {[ "/data/keep.bin" := [Byte.x01] ]} /\
  (Toy.handler Toy.clip {[ "/data/keep.bin" := [Byte.x01] ]}).1
    !! "/data/keep.bin" = Some [Byte.x01].
Proof.
  assert (H : "/data/keep.bin" ≠ Toy.tmp_name {[ "/data/keep.bin" := [Byte.x01] ]})
    by (vm_compute; discriminate).
  split; [exact H|].
  etrans; [|reflexivity].
  exact (other_files_untouched Toy.decode Toy.imencode_jpg Toy.b64encode
           Toy.tmp_name Toy.model Toy.clip
           {[ "/data/keep.bin" := [Byte.x01] ]} "/data/keep.bin" H).
Defined.

Lemma file_system_restored_on_success_witness :
  (exists p, (Toy.handler Toy.clip ∅).2 = inr p) /\
  (∅ : FS) !! Toy.tmp_name ∅ = None /\
  (Toy.handler Toy.clip ∅).1 = ∅.
Proof.
  split; [eexists; reflexivity|]. split; [reflexivity|].
  eapply (file_system_restored_on_success Toy.decode Toy.imencode_jpg
            Toy.b64encode Toy.tmp_name Toy.model Toy.clip ∅);
    reflexivity.
Defined.

Lemma records_at_regular_positions_witness :
  py_int (CAP_PROP_FPS (Toy.decode ToyVariant.second_clip)) ≠ 0 /\
  detector_succeeds Toy.model (Toy.decode ToyVariant.second_clip) /\
  exists p,
    (Toy.handler ToyVariant.second_clip ∅).2 = inr p /\
    frame_number <$> frames p = [0; 15; 30] /\
    message p = "Processed 3 frames".
Proof.
  assert (H1 : py_int (CAP_PROP_FPS (Toy.decode ToyVariant.second_clip)) ≠ 0)
    by (vm_compute; discriminate).
  assert (H2 : detector_succeeds Toy.model (Toy.decode ToyVariant.second_clip))
    by (apply all_detected_succeeds; vm_compute; reflexivity).
  split; [exact H1|]. split; [exact H2|].
  destruct (records_at_regular_positions Toy.decode Toy.imencode_jpg
              Toy.b64encode Toy.tmp_name Toy.model ToyVariant.second_clip ∅
              H1 H2) as (p & Hp & Hnum & Hlen & Hmsg).
  exists p. split; [exact Hp|].
  assert (Hint : frame_interval p = 15).
  { change (Toy.handler ToyVariant.second_clip ∅).2 with
      (predict_video_frames Toy.decode Toy.imencode_jpg Toy.b64encode
         Toy.tmp_name Toy.model ToyVariant.second_clip ∅).2 in Hp.
    vm_compute in Hp. injection Hp as <-. reflexivity. }
  rewrite Hint in *.
  assert (Hn : length (frames p) = 3%nat).
  { apply Nat2Z.inj. rewrite Hlen. reflexivity. }
  split; [rewrite Hnum; reflexivity|]. rewrite Hmsg, Hn. reflexivity.
Defined.

Lemma record_built_from_its_frame_witness :
  py_int (CAP_PROP_FPS (Toy.decode Toy.clip)) ≠ 0 /\
  detector_succeeds Toy.model (Toy.decode Toy.clip) /\
  exists p,
    (Toy.handler Toy.clip ∅).2 = inr p /\
    forall r, frames p !! 1%nat = Some r ->
      frame_number r = 1 * frame_interval p.
Proof.
  assert (H1 : py_int (CAP_PROP_FPS (Toy.decode Toy.clip)) ≠ 0)
    by (vm_compute; discriminate).
  assert (H2 : detector_succeeds Toy.model (Toy.decode Toy.clip))
    by (apply all_detected_succeeds; reflexivity).
  split; [exact H1|]. split; [exact H2|].
  destruct (record_built_from_its_frame Toy.decode Toy.imencode_jpg
              Toy.b64encode Toy.tmp_name Toy.model Toy.clip ∅ H1 H2)
    as (p & Hp & Hrec).
  exists p. split; [exact Hp|]. intros r Hr.
  exact (proj1 (Hrec 1%nat r Hr)).
Defined.

Lemma detections_match_boxes_witness :
  py_int (CAP_PROP_FPS (Toy.decode Toy.clip)) ≠ 0 /\
  detector_succeeds Toy.model (Toy.decode Toy.clip) /\
  exists p,
    (Toy.handler Toy.clip ∅).2 = inr p /\
    forall r, r ∈ frames p ->
      exists results, Forall2 (box_matches Toy.model) results (detections r).
Proof.
  assert (H1 : py_int (CAP_PROP_FPS (Toy.decode Toy.clip)) ≠ 0)
    by (vm_compute; discriminate).
  assert (H2 : detector_succeeds Toy.model (Toy.decode Toy.clip))
    by (apply all_detected_succeeds; reflexivity).
  split; [exact H1|]. split; [exact H2|].
  destruct (detections_match_boxes Toy.decode Toy.imencode_jpg
              Toy.b64encode Toy.tmp_name Toy.model Toy.clip ∅ H1 H2)
    as (p & Hp & Hrec).
  exists p. split; [exact Hp|]. intros r Hr.
  destruct (Hrec r Hr) as (f & results & _ & _ & Hall).
  by exists (reported_boxes results).
Defined.

Lemma unnamed_class_is_error_witness :
  py_int (CAP_PROP_FPS (Toy.decode ToyVariant.unnamed_class)) ≠ 0 /\
  names Toy.model !! 4 = None /\
  (Toy.handler ToyVariant.unnamed_class ∅).2 =
    inl {| status_code := 500; detail := "4" |}.
Proof.
  split; [vm_compute; discriminate|]. split; [reflexivity|].
  apply (unnamed_class_is_error Toy.decode Toy.imencode_jpg Toy.b64encode
           Toy.tmp_name Toy.model ToyVariant.unnamed_class ∅ 1%nat
           (Toy.gray Byte.x04) []
           {| xyxy := (1, 2, 3, 4)%Q; conf := 9 # 10; cls := inject_Z 4 |} []).
  - vm_compute. discriminate.
  - reflexivity.
  - reflexivity.
  - reflexivity.
  - constructor.
  - reflexivity.
  - intros [|m] g Hlt Hg _; [|lia].
    injection Hg as <-. eexists. reflexivity.
Defined.

Lemma detector_consulted_on_sampled_frames_only_witness :
  names Toy.model = names ToyVariant.model /\
  predict Toy.model (cvtColor_BGR2RGB (Toy.gray Byte.x03)) (25 # 100) ≠
    predict ToyVariant.model (cvtColor_BGR2RGB (Toy.gray Byte.x03)) (25 # 100) /\
  Toy.handler Toy.clip ∅ = ToyVariant.handler Toy.clip ∅.
Proof.
  split; [reflexivity|]. split; [vm_compute; discriminate|].
  apply (detector_consulted_on_sampled_frames_only Toy.decode Toy.imencode_jpg
           Toy.b64encode Toy.tmp_name Toy.model ToyVariant.model Toy.clip ∅).
  - reflexivity.
  - intros [|[|[|[|[|n]]]]] f Hf Hm; vm_compute in Hf, Hm;
      try discriminate; injection Hf as <-; reflexivity.
Defined.

Lemma timestamps_increase_witness :
  0 < py_int (CAP_PROP_FPS (Toy.decode Toy.clip)) /\
  detector_succeeds Toy.model (Toy.decode Toy.clip) /\
  exists p,
    (Toy.handler Toy.clip ∅).2 = inr p /\
    StronglySorted Qlt (timestamp <$> frames p).
Proof.
  assert (H2 : detector_succeeds Toy.model (Toy.decode Toy.clip))
    by (apply all_detected_succeeds; reflexivity).
  split; [reflexivity|]. split; [exact H2|].
  destruct (timestamps_increase Toy.decode Toy.imencode_jpg
              Toy.b64encode Toy.tmp_name Toy.model Toy.clip ∅ eq_refl H2)
    as (p & Hp & Hsorted & _).
  exists p. split; [exact Hp|exact Hsorted].
Defined.

Lemma even_rate_half_second_steps_witness :
  0 < py_int (CAP_PROP_FPS (Toy.decode Toy.clip)) /\
  py_int (CAP_PROP_FPS (Toy.decode Toy.clip)) mod 2 = 0 /\
  detector_succeeds Toy.model (Toy.decode Toy.clip) /\
  exists p,
    (Toy.handler Toy.clip ∅).2 = inr p /\
    forall r, frames p !! 2%nat = Some r -> (timestamp r == 1)%Q.
Proof.
  assert (H3 : detector_succeeds Toy.model (Toy.decode Toy.clip))
    by (apply all_detected_succeeds; reflexivity).
  split; [reflexivity|]. split; [reflexivity|]. split; [exact H3|].
  destruct (even_rate_half_second_steps Toy.decode Toy.imencode_jpg
              Toy.b64encode Toy.tmp_name Toy.model Toy.clip ∅
              eq_refl eq_refl H3) as (p & Hp & Hts).
  exists p. split; [exact Hp|]. intros r Hr.
  rewrite (Hts 2%nat r Hr). reflexivity.
Defined.

Lemma image_unnamed_class_is_error_witness :
  ToyImage.Image_open [Byte.x04] =
    inr {| mode := "L"; pixels := Toy.gray Byte.x04 |} /\
  names Toy.model !! 4 = None /\
  ToyImage.handler [Byte.x04] = inl {| status_code := 500; detail := "4" |}.
Proof.
  split; [reflexivity|]. split; [reflexivity|].
  apply (image_unnamed_class_is_error ToyImage.Image_open ToyImage.convert
           ToyImage.predict_all Toy.imencode_jpg Toy.b64encode Toy.model
           [Byte.x04] {| mode := "L"; pixels := Toy.gray Byte.x04 |}
           _ []
           {| xyxy := (1, 2, 3, 4)%Q; conf := 9 # 10; cls := inject_Z 4 |}
           _ eq_refl eq_refl eq_refl).
  - constructor.
  - reflexivity.
Defined.

Lemma video_final_file_system_witness :
  is_Some ((<[Toy.tmp_name ∅ := ToyVideo.silent]> (∅ : FS)) !! Toy.tmp_name ∅) /\
  (ToyVideo.handler ToyVideo.silent ∅).2 =
    inl {| status_code := 500; detail := "500: Failed to process video" |} /\
  (ToyVideo.handler ToyVideo.silent ∅).1 = ∅.
Proof.
  assert (H : is_Some ((<[Toy.tmp_name ∅ := ToyVideo.silent]> (∅ : FS))
                         !! Toy.tmp_name ∅)) by (by eexists).
  split; [exact H|]. split; [reflexivity|].
  etrans; [|reflexivity].
  exact (video_final_file_system Toy.tmp_name ToyVideo.predict_save
           ToyVideo.glob_mp4 ToyVideo.HTTPException_str ToyVideo.silent ∅
           (<[Toy.tmp_name ∅ := ToyVideo.silent]> ∅)
           (inr [ {| save_dir := None |};
                  {| save_dir := Some ToyVideo.out_dir |} ])
           eq_refl H).
Defined.

Lemma video_success_names_first_output_witness :
  (ToyVideo.handler ToyVideo.good ∅).2 =
    inr {| video_success := true;
           output_video := ToyVideo.out_file;
           video_message := "Video processed successfully" |} /\
  is_Some ((ToyVideo.handler ToyVideo.good ∅).1 !! ToyVideo.out_file).
Proof.
  assert (H : (ToyVideo.handler ToyVideo.good ∅).2 =
                inr {| video_success := true;
                       output_video := ToyVideo.out_file;
                       video_message := "Video processed successfully" |})
    by reflexivity.
  split; [exact H|].
  apply (video_success_names_first_output Toy.tmp_name ToyVideo.predict_save
           ToyVideo.glob_mp4 ToyVideo.HTTPException_str ToyVideo.good ∅ _ H).
Defined.

Lemma video_without_output_is_error_witness :
  is_Some ((<[Toy.tmp_name ∅ := ToyVideo.silent]> (∅ : FS)) !! Toy.tmp_name ∅) /\
  (ToyVideo.handler ToyVideo.silent ∅).2 =
    inl {| status_code := 500; detail := "500: Failed to process video" |}.
Proof.
  assert (H : is_Some ((<[Toy.tmp_name ∅ := ToyVideo.silent]> (∅ : FS))
                         !! Toy.tmp_name ∅)) by (by eexists).
  assert (Hp : ToyVideo.predict_save (Toy.tmp_name ∅)
                 (<[Toy.tmp_name ∅ := ToyVideo.silent]> ∅) =
               (<[Toy.tmp_name ∅ := ToyVideo.silent]> ∅,
                inr [ {| save_dir := None |};
                      {| save_dir := Some ToyVideo.out_dir |} ]))
    by reflexivity.
  split; [exact H|].
  apply (video_without_output_is_error Toy.tmp_name ToyVideo.predict_save
           ToyVideo.glob_mp4 ToyVideo.HTTPException_str ToyVideo.silent ∅
           _ _ Hp H).
  repeat constructor; intros d [= <-]. reflexivity.
Defined.

Lemma browser_only_after_backend_witness :
  StartApp.BrowserOpen "file:///srv/app/frontend/index.html"
    ∈ (StartApp.main (ToyWorld.world ToyWorld.complete false)).1 /\
  exists before after,
    (StartApp.main (ToyWorld.world ToyWorld.complete false)).1 =
      before ++ StartApp.BrowserOpen "file:///srv/app/frontend/index.html"
             :: after /\
    StartApp.Popen
      (StartApp.server_args (ToyWorld.world ToyWorld.complete false))
      "backend" ∈ before.
Proof.
  assert (H : StartApp.BrowserOpen "file:///srv/app/frontend/index.html"
                ∈ (StartApp.main (ToyWorld.world ToyWorld.complete false)).1).
  { vm_compute. repeat (apply list_elem_of_here || apply list_elem_of_further). }
  split; [exact H|].
  exact (browser_only_after_backend _ _ H).
Defined.

Lemma backend_left_running_when_frontend_missing_witness :
  StartApp.ready_for_backend (ToyWorld.world ToyWorld.without_frontend true) /\
  StartApp.Terminate
    ∉ (StartApp.main (ToyWorld.world ToyWorld.without_frontend true)).1.
Proof.
  assert (H : StartApp.ready_for_backend
                (ToyWorld.world ToyWorld.without_frontend true))
    by (repeat split; reflexivity).
  split; [exact H|].
  exact (proj1 (proj2 (proj2
    (backend_left_running_when_frontend_missing
       (ToyWorld.world ToyWorld.without_frontend true) H eq_refl eq_refl)))).
Defined.
